(** * ccfx: a shallow embedding of the helper library and its properties

    The development follows the Python sources [ccfx/ccfx.py] and
    [ccfx/sqliteConnection.py].  Python strings are [string]s (one [ascii]
    per character), integers are [Z], numpy [float64] values are Rocq's
    primitive binary64 floats, the file system is a finite map from
    resolved paths to nodes, and functions with side effects run in a
    small state-and-exception monad over a [World].

    The path functions are those of [posixpath] ([os.path] on POSIX). *)

From Stdlib Require Import ZArith Lia Ascii Floats.
From Stdlib Require String.
From stdpp Require Import gmap strings list pretty.

Local Open Scope Z_scope.

(** ** Python string methods *)

Module PyStr.

(** The double-quote character, and a one-character string of it. *)
Definition dquote_char : ascii := "034"%char.
Definition dquote : string := String dquote_char EmptyString.

Definition eqb (a b : string) : bool := bool_decide (a = b).

(** [s.startswith(p)] *)
Fixpoint startswith (p s : string) : bool :=
  match p, s with
  | EmptyString, _ => true
  | String a p', String b s' => if Ascii.eqb a b then startswith p' s' else false
  | String _ _, EmptyString => false
  end.

(** [s.endswith(c)] for a one-character suffix [c]. *)
Fixpoint endswith_char (c : ascii) (s : string) : bool :=
  match s with
  | EmptyString => false
  | String a EmptyString => Ascii.eqb a c
  | String _ s' => endswith_char c s'
  end.

(** [s.lstrip(c)] for a one-character set [c]. *)
Fixpoint lstrip (c : ascii) (s : string) : string :=
  match s with
  | EmptyString => EmptyString
  | String a s' => if Ascii.eqb a c then lstrip c s' else s
  end.

(** [s.rstrip(c)] for a one-character set [c]. *)
Fixpoint rstrip (c : ascii) (s : string) : string :=
  match s with
  | EmptyString => EmptyString
  | String a s' =>
      match rstrip c s' with
      | EmptyString => if Ascii.eqb a c then EmptyString else String a EmptyString
      | r => String a r
      end
  end.

(** [s[:-1]] *)
Fixpoint drop_last (s : string) : string :=
  match s with
  | EmptyString => EmptyString
  | String _ EmptyString => EmptyString
  | String a s' => String a (drop_last s')
  end.

(** [s[n:]] for [n] not above [len(s)]. *)
Fixpoint drop (n : nat) (s : string) : string :=
  match n, s with
  | O, _ => s
  | S n', String _ s' => drop n' s'
  | S _, EmptyString => EmptyString
  end.

(** [c in s] for a character [c]. *)
Fixpoint contains_char (c : ascii) (s : string) : bool :=
  match s with
  | EmptyString => false
  | String a s' => if Ascii.eqb a c then true else contains_char c s'
  end.

(** [s.replace(old, new)]: the non-overlapping occurrences of [old] are
    replaced from left to right.  [skip] counts the characters of a
    matched occurrence still to be passed over.  [old] is not empty at
    the call sites. *)
Fixpoint replace_from (old new : string) (skip : nat) (s : string) : string :=
  match s with
  | EmptyString => EmptyString
  | String a s' =>
      match skip with
      | S k => replace_from old new k s'
      | O =>
          if startswith old s
          then new +:+ replace_from old new (String.length old - 1) s'
          else String a (replace_from old new O s')
      end
  end.

Definition replace (old new s : string) : string := replace_from old new O s.

(** [sep.join(parts)] *)
Fixpoint join (sep : string) (parts : list string) : string :=
  match parts with
  | [] => EmptyString
  | [x] => x
  | x :: rest => x +:+ sep +:+ join sep rest
  end.

(** The part of [s] after its last [c], or all of [s] without one:
    [s[s.rfind(c)+1:]]. *)
Fixpoint after_last (c : ascii) (s : string) : string :=
  match s with
  | EmptyString => EmptyString
  | String a s' =>
      if contains_char c s' then after_last c s'
      else if Ascii.eqb a c then s' else s
  end.

(** The part of [s] up to and including its last [c], empty without
    one: [s[:s.rfind(c)+1]]. *)
Fixpoint upto_last (c : ascii) (s : string) : string :=
  match s with
  | EmptyString => EmptyString
  | String a s' =>
      if contains_char c s' then String a (upto_last c s')
      else if Ascii.eqb a c then String a EmptyString
      else EmptyString
  end.

(** Whether every character of [s] is [c]. *)
Fixpoint all_char (c : ascii) (s : string) : bool :=
  match s with
  | EmptyString => true
  | String a s' => Ascii.eqb a c && all_char c s'
  end.

End PyStr.

(** ** [os.path] (posixpath) *)

Module OsPath.
Import PyStr.

Definition sep : ascii := "/"%char.
Definition extsep : ascii := "."%char.

(** [os.path.join(a, b)] *)
Definition join (a b : string) : string :=
  if startswith "/" b then b
  else if eqb a EmptyString || endswith_char sep a then a +:+ b
  else a +:+ "/" +:+ b.

(** [os.path.basename(p)] is [p[p.rfind('/')+1:]]. *)
Definition basename (p : string) : string := after_last sep p.

(** [os.path.dirname(p)]: the head [p[:p.rfind('/')+1]], with its
    trailing slashes stripped unless it consists of slashes only. *)
Definition dirname (p : string) : string :=
  let head := upto_last sep p in
  if negb (eqb head EmptyString) && negb (all_char sep head)
  then rstrip sep head else head.

(** [os.path.splitext(p)]: the extension starts at the last dot of the
    last path component, unless only dots precede it there. *)
Definition splitext (p : string) : string * string :=
  let base := basename p in
  if contains_char extsep base then
    let stem := drop_last (upto_last extsep base) in
    if all_char extsep stem then (p, EmptyString)
    else (upto_last sep p +:+ stem, String extsep (after_last extsep base))
  else (p, EmptyString).

End OsPath.

(** ** Values the libraries exchange with the code *)

(** A value bound to an SQL parameter: Python's [None] is [SqlNull]. *)
Inductive sqlval : Type :=
| SqlNull
| SqlInt (z : Z)
| SqlReal (x : float)
| SqlText (s : string)
| SqlBlob (b : string).

(** A coordinate reference system. *)
Inductive crs : Type :=
| EPSG (code : Z)
| WKT (text : string).

Global Instance crs_eq_dec : EqDecision crs.
Proof. solve_decision. Defined.

(** A geometry: a rectangle [box(x0, y0, x1, y1)], a shape read from a
    file, or the image of a geometry under a change of coordinate
    system. *)
Inductive geometry : Type :=
| Box (x0 y0 x1 y1 : float)
| Shape (name : string)
| Reprojected (src dst : crs) (g : geometry).

(** A [GeoDataFrame]: the geometry column, the coordinate system of the
    frame and the [within] column once it is set. *)
Record GeoDataFrame : Type := mkGdf {
  gdf_crs : option crs;
  gdf_geometry : list geometry;
  gdf_within : option (list bool)
}.

(** The calls the code makes to engines outside it, as it makes them. *)
Inductive ext_call : Type :=
| GdalTranslate (dest src : string) (format : option string) (bandList : option (list Z))
| SqlExecute (sql : string) (params : list sqlval)
| HttpHead (url : string)
| HttpGet (url : string) (headers : list (string * string))
| GdfToFile (path driver : string) (gdf : GeoDataFrame).

(** ** The world: file system, working directory, console, calls *)

Inductive node : Type :=
| Dir
| File (data : string).

Record World : Type := mkWorld {
  fs : gmap (list string) node;
  cwd : list string;
  stdout : list string;
  calls : list ext_call
}.

Inductive exn : Type :=
| FileNotFoundError
| FileExistsError
| NotADirectoryError
| IsADirectoryError
| TypeError
| KeyError
| ZeroDivisionError
| ConnectionError
| AttributeError
| ValueError (msg : string)
| OSError (msg : string).

(** A call returns, raises, or never comes back. *)
Inductive result (A : Type) : Type :=
| Ok (a : A)
| Raise (e : exn)
| Diverge.
Arguments Ok {A} a.
Arguments Raise {A} e.
Arguments Diverge {A}.

(** A computation reads and updates the world and returns or raises. *)
Definition M (A : Type) : Type := World -> result A * World.

Definition ret {A} (a : A) : M A := fun w => (Ok a, w).
Definition raise {A} (e : exn) : M A := fun w => (Raise e, w).
Definition diverge {A} : M A := fun w => (Diverge, w).
Definition bind {A B} (m : M A) (k : A -> M B) : M B :=
  fun w => match m w with
           | (Ok a, w') => k a w'
           | (Raise e, w') => (Raise e, w')
           | (Diverge, w') => (Diverge, w')
           end.
(** [try: m  except: h] with a bare or [Exception] handler. *)
Definition try_except {A} (m : M A) (h : exn -> M A) : M A :=
  fun w => match m w with
           | (Raise e, w') => h e w'
           | r => r
           end.
Definition when (b : bool) (m : M unit) : M unit := if b then m else ret tt.
(** Reads the world. *)
Definition ask {A} (f : World -> A) : M A := fun w => (Ok (f w), w).
(** The value of an optional result, raising [e] without one. *)
Definition or_raise {A} (e : exn) (o : option A) : M A :=
  match o with Some a => ret a | None => raise e end.

Global Instance M_ret : MRet M := @ret.
Global Instance M_bind : MBind M := fun A B k m => bind m k.

Definition newline : string := String "010"%char EmptyString.
Definition tab : string := String "009"%char EmptyString.
Definition cr : string := String "013"%char EmptyString.

(** [sys.stdout.write(text)] and [print(line)] *)
Definition stdout_write (text : string) : M unit :=
  fun w => (Ok tt, mkWorld (fs w) (cwd w) (stdout w ++ [text]) (calls w)).
Definition print (line : string) : M unit := stdout_write (line +:+ newline).

(** Records a call to an outside engine. *)
Definition log_call (c : ext_call) : M unit :=
  fun w => (Ok tt, mkWorld (fs w) (cwd w) (stdout w) (calls w ++ [c])).

(** *** Path resolution

    A path is resolved to the list of its component names below the root;
    empty components and [.] are skipped and [..] drops the last
    component (there are no symbolic links in the model). *)

Fixpoint split_on (c : ascii) (s : string) : list string :=
  match s with
  | EmptyString => [EmptyString]
  | String a s' =>
      if Ascii.eqb a c then EmptyString :: split_on c s'
      else match split_on c s' with
           | x :: xs => String a x :: xs
           | [] => [String a EmptyString]
           end
  end.

Definition resolve_step (acc : list string) (name : string) : list string :=
  if PyStr.eqb name EmptyString || PyStr.eqb name "." then acc
  else if PyStr.eqb name ".." then removelast acc
  else acc ++ [name].

Definition resolve_from (dir : list string) (p : string) : list string :=
  fold_left resolve_step (split_on OsPath.sep p)
    (if PyStr.startswith "/" p then [] else dir).

Definition resolve (w : World) (p : string) : list string :=
  resolve_from (cwd w) p.

(** The node a path names: none for the empty path, the root directory
    for an empty resolution, and no file under a name with a trailing
    slash. *)
Definition lookup_node (w : World) (p : string) : option node :=
  if PyStr.eqb p EmptyString then None
  else match resolve w p with
       | [] => Some Dir
       | k => match fs w !! k with
              | Some (File d) =>
                  if PyStr.endswith_char OsPath.sep p then None else Some (File d)
              | o => o
              end
       end.

Definition is_dir_key (w : World) (k : list string) : bool :=
  match k with
  | [] => true
  | _ => match fs w !! k with Some Dir => true | _ => false end
  end.

Definition with_fs (w : World) (f : gmap (list string) node) : World :=
  mkWorld f (cwd w) (stdout w) (calls w).

(** [os.path.exists(p)] and [os.path.isdir(p)] *)
Definition os_path_exists (p : string) : M bool :=
  fun w => (Ok (bool_decide (is_Some (lookup_node w p))), w).
Definition os_path_isdir (p : string) : M bool :=
  fun w => (Ok (match lookup_node w p with Some Dir => true | _ => false end), w).

(** The non-empty prefixes of a key, shortest first. *)
Fixpoint key_prefixes (k : list string) : list (list string) :=
  match k with
  | [] => []
  | x :: k' => [x] :: map (cons x) (key_prefixes k')
  end.

(** [os.makedirs(p)] (with [exist_ok=False]): creates the directory and
    its missing ancestors. *)
Definition os_makedirs (p : string) : M unit :=
  fun w =>
    if PyStr.eqb p EmptyString then (Raise FileNotFoundError, w)
    else
      let k := resolve w p in
      match k with
      | [] => (Raise FileExistsError, w)
      | _ =>
          if bool_decide (is_Some (fs w !! k)) then (Raise FileExistsError, w)
          else if forallb (fun q => match fs w !! q with Some (File _) => false | _ => true end)
                    (key_prefixes k)
          then (Ok tt, with_fs w (foldr (fun q m => <[q := Dir]> m) (fs w)
                                    (filter (fun q => fs w !! q = None) (key_prefixes k))))
          else (Raise NotADirectoryError, w)
      end.

(** Whether [k] lies at or below [root]. *)
Fixpoint key_under (root k : list string) : bool :=
  match root, k with
  | [], _ => true
  | r :: root', x :: k' => PyStr.eqb r x && key_under root' k'
  | _ :: _, [] => false
  end.

(** [shutil.rmtree(p)]: removes a directory with everything below it. *)
Definition shutil_rmtree (p : string) : M unit :=
  fun w =>
    match lookup_node w p with
    | None => (Raise FileNotFoundError, w)
    | Some (File _) => (Raise NotADirectoryError, w)
    | Some Dir =>
        let root := resolve w p in
        (Ok tt, with_fs w (filter (fun kv => key_under root kv.1 = false) (fs w)))
    end.

(** [os.remove(p)] *)
Definition os_remove (p : string) : M unit :=
  fun w =>
    match lookup_node w p with
    | None => (Raise FileNotFoundError, w)
    | Some Dir => (Raise IsADirectoryError, w)
    | Some (File _) => (Ok tt, with_fs w (delete (resolve w p) (fs w)))
    end.

(** [os.path.getsize(p)] *)
Definition os_path_getsize (p : string) : M Z :=
  fun w =>
    match lookup_node w p with
    | None => (Raise FileNotFoundError, w)
    | Some Dir => (Ok 4096, w)
    | Some (File d) => (Ok (Z.of_nat (String.length d)), w)
    end.

(** An open file is the key it was opened under. *)
Definition handle : Type := list string.

Inductive open_mode : Type := ModeW | ModeA.

(** [open(p, 'w')], [open(p, 'wb')] ([ModeW]: create or truncate) and
    [open(p, 'ab')] ([ModeA]: create or keep).  The directory that is to
    hold the file has to exist. *)
Definition open_write (p : string) (mode : open_mode) : M handle :=
  fun w =>
    if PyStr.eqb p EmptyString then (Raise FileNotFoundError, w)
    else if PyStr.endswith_char OsPath.sep p then (Raise IsADirectoryError, w)
    else
      let k := resolve w p in
      match k with
      | [] => (Raise IsADirectoryError, w)
      | _ =>
          if negb (is_dir_key w (removelast k)) then (Raise FileNotFoundError, w)
          else match fs w !! k, mode with
               | Some Dir, _ => (Raise IsADirectoryError, w)
               | Some (File _), ModeA => (Ok k, w)
               | _, _ => (Ok k, with_fs w (<[k := File EmptyString]> (fs w)))
               end
      end.

(** [f.write(data)] on a file opened for writing. *)
Definition file_write (h : handle) (data : string) : M unit :=
  fun w =>
    match fs w !! h with
    | Some (File d) => (Ok tt, with_fs w (<[h := File (d +:+ data)]> (fs w)))
    | _ => (Ok tt, w)
    end.

(** [f.writelines(lines)] *)
Fixpoint file_writelines (h : handle) (lines : list string) : M unit :=
  match lines with
  | [] => ret tt
  | l :: rest => file_write h l;; file_writelines h rest
  end.

(** [open(p, 'rb').read()] *)
Definition read_file (p : string) : M string :=
  fun w =>
    match lookup_node w p with
    | None => (Raise FileNotFoundError, w)
    | Some Dir => (Raise IsADirectoryError, w)
    | Some (File d) => (Ok d, w)
    end.


(** ** External libraries the code calls

    What a library computes is taken as an interface; the code that calls
    it is modelled from the source. *)

(** [glob.glob(pattern)]: the paths of the file system matching a
    pattern. *)
Class Glob : Type := glob_glob : World -> string -> list string.

(** [line.encode(codec)]: the encoded line, or nothing when the codec is
    unknown or the line cannot be encoded (the call raises). *)
Class Codecs : Type := str_encode : string -> string -> option string.

(** What a Python function hands back: [None] when it ends without a
    [return], else the returned value. *)
Inductive pyval : Type :=
| PyNone
| PyBool (b : bool).

(** ** Path and file-system helpers ([ccfx.py]) *)

(** The extension [listFiles] appends to its [*]: [ext.lstrip('*')], with
    a dot put in front unless it starts with one; [*] when no extension is
    given. *)
Definition listFiles_ext (ext : option string) : string :=
  match ext with
  | None => "*"
  | Some ext =>
      let ext := PyStr.lstrip "*" ext in
      if negb (PyStr.startswith "." ext) then "." +:+ ext else ext
  end.

Definition listFiles_pattern (path : string) (ext : option string) : string :=
  OsPath.join path ("*" +:+ listFiles_ext ext).

Definition listFiles `{Glob} (path : string) (ext : option string) : M (list string) :=
  let pattern := listFiles_pattern path ext in
  isd ← os_path_isdir path;
  if negb isd then
    print ("! Warning: " +:+ path +:+ " is not a directory");;
    mret ([] : list string)
  else
    ask (fun w => glob_glob w pattern).

Definition getExtension (filePath : string) : string :=
  PyStr.lstrip "." (OsPath.splitext filePath).2.

Definition getFileBaseName (filePath : string) (extension : bool) : string :=
  let baseName := OsPath.basename filePath in
  if extension then baseName else (OsPath.splitext baseName).1.

Definition deleteFile (filePath : string) (v : bool) : M bool :=
  ex ← os_path_exists filePath;
  if (ex : bool) then
    deleted ← try_except (os_remove filePath;; mret true)
                 (fun _ => print ("! Could not delete " +:+ filePath);; mret false);
    when v (print ("> " +:+ filePath +:+ " deleted"));;
    mret deleted
  else
    when v (print ("! " +:+ filePath +:+ " does not exist"));;
    mret false.

(** [deletePath] computes [deleted] as [deleteFile] does and ends without
    a [return] statement. *)
Definition deletePath (path : string) (v : bool) : M pyval :=
  ex ← os_path_exists path;
  deleted ← (if (ex : bool) then
      deleted ← try_except (shutil_rmtree path;; mret true)
                   (fun _ => print ("! Could not delete " +:+ path);; mret false);
      when v (print ("> " +:+ path +:+ " deleted"));;
      mret deleted
    else
      when v (print ("! " +:+ path +:+ " does not exist"));;
      mret false);
  mret PyNone.

Definition backslash : ascii := "092"%char.

Definition createPath (pathName : string) (v : bool) : M string :=
  if PyStr.eqb pathName EmptyString then mret "./"
  else
    let pathName :=
      if PyStr.endswith_char backslash pathName then PyStr.drop_last pathName else pathName in
    let pathName :=
      if negb (PyStr.endswith_char "/" pathName) then pathName +:+ "/" else pathName in
    isd ← os_path_isdir pathName;
    when (negb isd)
      (os_makedirs pathName;;
       when v (print (tab +:+ "> created path: " +:+ pathName)));;
    mret (if PyStr.endswith_char "/" pathName then PyStr.drop_last pathName else pathName).

(** [[line.encode(codec) for line in file_text]] *)
Fixpoint encode_lines `{Codecs} (codec : string) (lines : list string) : M (list string) :=
  match lines with
  | [] => mret []
  | l :: rest =>
      match str_encode codec l with
      | None => raise (ValueError "encode")
      | Some b => bs ← encode_lines codec rest; mret (b :: bs)
      end
  end.

(** [writeTo]: the file is opened inside the [try]; [createPath] for its
    directory is called after that. *)
Definition writeTo `{Codecs} (filename : string) (file_text : list string)
    (encode_codec : option string) (v : bool) : M bool :=
  opened ← try_except (g ← open_write filename ModeW; mret (Some g))
              (fun _ => print (tab +:+ "! error writing to " +:+ filename);; mret None);
  match opened with
  | None => mret false
  | Some g =>
      createPath (OsPath.dirname filename) false;;
      file_text ← match encode_codec with
                   | Some codec => encode_lines codec file_text
                   | None => mret file_text
                   end;
      file_writelines g file_text;;
      when v (print (tab +:+ "> wrote " +:+ getFileBaseName filename true));;
      mret true
  end.

Definition writeToFile `{Codecs} (filename : string) (file_text : list string)
    (encode_codec : option string) (v : bool) : M bool :=
  writeTo filename file_text encode_codec v.


(** ** Audio metadata ([ccfx.py]) *)

(** An ID3 frame: its text ([str(frame)]) and, for a picture, its data. *)
Record id3_frame : Type := mkFrame {
  frame_text : string;
  frame_data : string
}.

(** The tags of a file: frames under their keys, in the order of the
    file. *)
Definition id3_tags : Type := list (string * id3_frame).

(** [MP3(fn, ID3=ID3)]: nothing when the file cannot be parsed (the call
    raises), else the [tags] attribute, which is [None] for a file
    without tags. *)
Class Mutagen : Type := mutagen_MP3 : World -> string -> option (option id3_tags).

(** [d[key]] on a dictionary kept as an association list. *)
Fixpoint dict_get {V : Type} (key : string) (d : list (string * V)) : option V :=
  match d with
  | [] => None
  | (k, v) :: rest => if PyStr.eqb k key then Some v else dict_get key rest
  end.

(** [str(e)] for the message of an exception. *)
Definition exn_str (e : exn) : string :=
  match e with
  | FileNotFoundError => "No such file or directory"
  | FileExistsError => "File exists"
  | NotADirectoryError => "Not a directory"
  | IsADirectoryError => "Is a directory"
  | TypeError => "argument of type 'NoneType' is not iterable"
  | KeyError => "key"
  | ZeroDivisionError => "division by zero"
  | ConnectionError => "connection error"
  | AttributeError => "'NoneType' object has no attribute"
  | ValueError msg => msg
  | OSError msg => msg
  end.

Record Mp3Metadata : Type := mkMp3Metadata {
  md_artist : string;
  md_album : string;
  md_title : string;
  md_track_number : string;
  md_year : string;
  md_genre : string
}.

(** [str(audio.tags[key])] when the key is among the tags, else the
    default. *)
Definition tag_or (tags : id3_tags) (key default : string) : string :=
  match dict_get key tags with
  | Some frame => frame_text frame
  | None => default
  end.

(** The title used without a [TIT2] frame:
    [os.path.basename(fn).replace('.mp3', '')]. *)
Definition default_title (fn : string) : string :=
  PyStr.replace ".mp3" EmptyString (OsPath.basename fn).

Definition default_metadata (fn : string) : Mp3Metadata :=
  mkMp3Metadata "Unknown Artist" "Unknown Album" (default_title fn)
    "0" "Unknown Year" "Unknown Genre".

(** The loop over [audio.tags.keys()]: the data of the first key that
    starts with [APIC:] is written to [imagePath]. *)
Fixpoint extract_image (tags : id3_tags) (imagePath : string) : M bool :=
  match tags with
  | [] => mret false
  | (tagKey, frame) :: rest =>
      if PyStr.startswith "APIC:" tagKey then
        img_file ← open_write imagePath ModeW;
        file_write img_file (frame_data frame);;
        mret true
      else extract_image rest imagePath
  end.

Definition getMp3Metadata `{Mutagen} (fn : string) (imagePath : option string)
    : M Mp3Metadata :=
  try_except
    (parsed ← ask (fun w => mutagen_MP3 w fn);
     audio ← or_raise (OSError "can't sync to MPEG frame") parsed;
     match audio with
     | None => raise TypeError
     | Some tags =>
         let metadata :=
           mkMp3Metadata
             (tag_or tags "TPE1" "Unknown Artist")
             (tag_or tags "TALB" "Unknown Album")
             (tag_or tags "TIT2" (default_title fn))
             (tag_or tags "TRCK" "0")
             (tag_or tags "TDRC" "Unknown Year")
             (tag_or tags "TCON" "Unknown Genre") in
         match imagePath with
         | Some imagePath =>
             foundImage ← extract_image tags imagePath;
             when (negb foundImage) (print "No image found in metadata.");;
             mret metadata
         | None => mret metadata
         end
     end)
    (fun e =>
       print ("Error extracting metadata from " +:+ fn +:+ ": " +:+ exn_str e);;
       mret (default_metadata fn)).

(** ** NetCDF export ([ccfx.py]) *)

(** What [gdal.Translate] can read from a source string: nothing when the
    source cannot be opened, else the raster it renders for the band
    list. *)
Class Gdal : Type := gdal_render : World -> string -> option (list Z) -> option string.

Inductive gdal_dataset : Type :=
| MemDataset (src : string) (bandList : option (list Z))
| FileDataset (path src : string) (bandList : option (list Z)).

(** [gdal.Translate(dest, src, format=..., bandList=...)]: the dataset, or
    [None] when the source cannot be read or the output not written. *)
Definition gdal_Translate `{Gdal} (dest src : string) (format : option string)
    (bandList : option (list Z)) : M (option gdal_dataset) :=
  log_call (GdalTranslate dest src format bandList);;
  rendered ← ask (fun w => gdal_render w src bandList);
  match rendered, format with
  | None, _ => mret None
  | Some _, Some _ => mret (Some (MemDataset src bandList))
  | Some raster, None =>
      try_except
        (out ← open_write dest ModeW;
         file_write out raster;;
         mret (Some (FileDataset dest src bandList)))
        (fun _ => mret None)
  end.

(** The source string, an f-string literal: [NETCDF:], a double quote,
    [{ncFile}], a double quote, a colon, [{variable}], and a double quote
    as the last character before the literal is closed. *)
Definition netcdf_input_string (ncFile variable : string) : string :=
  "NETCDF:" +:+ PyStr.dquote +:+ ncFile +:+ PyStr.dquote +:+ ":" +:+ variable
    +:+ PyStr.dquote.

(** [f'{x}'] for an optional string: [None] prints as its name. *)
Definition fmt_opt (x : option string) : string :=
  match x with Some s => s | None => "None" end.

Definition truthy_str (x : option string) : bool :=
  match x with Some s => negb (PyStr.eqb s EmptyString) | None => false end.

Definition truthy_int (x : option Z) : bool :=
  match x with Some z => negb (z =? 0) | None => false end.

Definition netcdfExportTif `{Gdal} (ncFile variable : string) (outputFile : option string)
    (band : option Z) (v : bool) : M (option gdal_dataset) :=
  let input_string := netcdf_input_string ncFile variable in
  when v (print ("> Exporting " +:+ variable +:+ " from " +:+ ncFile +:+ " to "
                   +:+ fmt_opt outputFile));;
  if truthy_str outputFile then
    let outputFile := default EmptyString outputFile in
    ex ← os_path_exists outputFile;
    when (negb ex)
      (let dirName := OsPath.dirname outputFile in
       exd ← os_path_exists dirName;
       when (negb exd) (os_makedirs dirName));;
    if truthy_int band
    then gdal_Translate outputFile input_string None (Some [default 0 band])
    else gdal_Translate outputFile input_string None None
  else
    if truthy_int band
    then gdal_Translate EmptyString input_string (Some "MEM") (Some [default 0 band])
    else gdal_Translate EmptyString input_string (Some "MEM") None.

(** ** The SQLite helper ([sqliteConnection.py]) *)

(** Whether the engine rejects a statement, and with what. *)
Class Sqlite : Type := sqlite_error : World -> string -> list sqlval -> option exn.

(** The helper object: the database name and whether [connect] has set
    the cursor. *)
Record sqliteConnection : Type := mkConn {
  db_name : string;
  has_cursor : bool
}.

(** [self.cursor.execute(sql, params)] *)
Definition cursor_execute `{Sqlite} (self : sqliteConnection) (sql : string)
    (params : list sqlval) : M unit :=
  if has_cursor self then
    log_call (SqlExecute sql params);;
    err ← ask (fun w => sqlite_error w sql params);
    match err with
    | Some e => raise e
    | None => mret tt
    end
  else raise AttributeError.

Definition report (text : string) (printing : bool) : M unit :=
  if printing then print (tab +:+ "> " +:+ text)
  else stdout_write (cr +:+ text).

Definition is_None (value : sqlval) : bool :=
  match value with SqlNull => true | _ => false end.

(** [','.join(['?' if value is None else '?' for value in l])] *)
Definition insertRow_placeholder (ordered_content_list : list sqlval) : string :=
  PyStr.join "," (map (fun value => if is_None value then "?" else "?") ordered_content_list).

(** [[None if value is None else value for value in l]] *)
Definition insertRow_values (ordered_content_list : list sqlval) : list sqlval :=
  map (fun value => if is_None value then SqlNull else value) ordered_content_list.

Definition insertRow `{Sqlite} (self : sqliteConnection) (table_name : string)
    (ordered_content_list : list sqlval) (dictionary_obj : list (string * sqlval))
    (messages : bool) : M unit :=
  (if (0 <? Z.of_nat (length ordered_content_list)) then
     let values_placeholder := insertRow_placeholder ordered_content_list in
     let values := insertRow_values ordered_content_list in
     cursor_execute self
       ("INSERT INTO " +:+ table_name +:+ " VALUES(" +:+ values_placeholder +:+ ")") values
   else if (0 <? Z.of_nat (length dictionary_obj)) then
     let question_marks := PyStr.join "," (replicate (length dictionary_obj) "?") in
     let keys := PyStr.join "," (map fst dictionary_obj) in
     let values := map snd dictionary_obj in
     cursor_execute self
       ("INSERT INTO " +:+ table_name +:+ " (" +:+ keys +:+ ") VALUES ("
          +:+ question_marks +:+ ")") values
   else mret tt);;
  when messages (report (tab +:+ "-> inserted row into " +:+ table_name) false).

(** Binding the raw list directly: one [?] per entry, and the entries
    themselves as the bound values. *)
Definition direct_placeholder (ordered_content_list : list sqlval) : string :=
  PyStr.join "," (replicate (length ordered_content_list) "?").

Definition insertRow_direct `{Sqlite} (self : sqliteConnection) (table_name : string)
    (ordered_content_list : list sqlval) (dictionary_obj : list (string * sqlval))
    (messages : bool) : M unit :=
  (if (0 <? Z.of_nat (length ordered_content_list)) then
     cursor_execute self
       ("INSERT INTO " +:+ table_name +:+ " VALUES("
          +:+ direct_placeholder ordered_content_list +:+ ")") ordered_content_list
   else if (0 <? Z.of_nat (length dictionary_obj)) then
     let question_marks := PyStr.join "," (replicate (length dictionary_obj) "?") in
     let keys := PyStr.join "," (map fst dictionary_obj) in
     let values := map snd dictionary_obj in
     cursor_execute self
       ("INSERT INTO " +:+ table_name +:+ " (" +:+ keys +:+ ") VALUES ("
          +:+ question_marks +:+ ")") values
   else mret tt);;
  when messages (report (tab +:+ "-> inserted row into " +:+ table_name) false).

(** ** The chunked downloader ([ccfx.py]) *)

(** The server: the [content-length] a [HEAD] request reports (as an
    integer, when the header is present) and the body of a [GET] with the
    given headers; nothing when the request raises. *)
Class Http : Type := {
  http_head : World -> string -> option (option Z);
  http_get : World -> string -> list (string * string) -> option string
}.

Definition requests_head `{Http} (url : string) : M (option Z) :=
  log_call (HttpHead url);;
  response ← ask (fun w => http_head w url);
  or_raise ConnectionError response.

Definition requests_get `{Http} (url : string) (headers : list (string * string))
    : M string :=
  log_call (HttpGet url headers);;
  response ← ask (fun w => http_get w url headers);
  or_raise ConnectionError response.

(** [f'bytes={start}-{end}'] *)
Definition range_header (start end_ : Z) : string :=
  "bytes=" +:+ pretty start +:+ "-" +:+ pretty end_.

(** [downloadChunk]: the pieces of the response are written in order, so
    the part file receives the body. *)
Definition downloadChunk `{Http} (url : string) (start end_ : Z) (path : string)
    : M unit :=
  let headers := [("Range", range_header start end_)] in
  response ← requests_get url headers;
  f ← open_write path ModeW;
  file_write f response.

(** [range(n)] *)
Definition py_range (n : Z) : list Z := map Z.of_nat (seq 0 (Z.to_nat n)).

(** [math.ceil(a / b)] for [b] other than zero; the quotient is taken
    exactly, as the float quotient of the source is for sizes below
    2^53. *)
Definition ceil_div (a b : Z) : Z := - ((- a) / b).

Definition download_chunk_size (file_size initial_pos num_connections : Z) : Z :=
  ceil_div (file_size - initial_pos) num_connections.

(** The loop that fills [chunks]. *)
Definition download_chunks (file_size initial_pos num_connections : Z) : list (Z * Z) :=
  let chunk_size := download_chunk_size file_size initial_pos num_connections in
  map (fun i =>
         let start := initial_pos + (i * chunk_size) in
         let end_ := Z.min (start + chunk_size - 1) (file_size - 1) in
         (start, end_))
      (py_range num_connections).

(** [[f"{save_fname}.part{i}" for i in range(num_connections)]] *)
Definition download_temp_files (save_fname : string) (num_connections : Z) : list string :=
  map (fun i => save_fname +:+ ".part" +:+ pretty i) (py_range num_connections).

(** The file the download works on: ["{0}/{1}".format(save_dir, fname)]
    with the directory of [save_path] and the base name of the URL. *)
Definition download_save_fname (url save_path : string) : string :=
  OsPath.dirname save_path +:+ "/" +:+ getFileBaseName url true.

(** The workers of the pool, one per chunk.  What a worker raises stays in
    its future, which nobody reads. *)
Fixpoint run_workers `{Http} (url : string) (jobs : list ((Z * Z) * string)) : M unit :=
  match jobs with
  | [] => mret tt
  | ((start, end_), path) :: rest =>
      try_except (downloadChunk url start end_ path) (fun _ => mret tt);;
      run_workers url rest
  end.

(** [sum(os.path.getsize(f) for f in temp_files if os.path.exists(f))] *)
Fixpoint sum_part_sizes (temp_files : list string) : M Z :=
  match temp_files with
  | [] => mret 0
  | f :: rest =>
      ex ← os_path_exists f;
      size ← (if (ex : bool) then os_path_getsize f else mret 0);
      total ← sum_part_sizes rest;
      mret (size + total)
  end.

(** The merge loop. *)
Fixpoint merge_parts (outfile : handle) (temp_files : list string) : M unit :=
  match temp_files with
  | [] => mret tt
  | temp_file :: rest =>
      ex ← os_path_exists temp_file;
      when ex
        (data ← read_file temp_file;
         file_write outfile data;;
         os_remove temp_file);;
      merge_parts outfile rest
  end.

(** [downloadFile].  The workers are run to their end before the polling
    loop is entered; the part files no longer change then, so the loop
    [while completed < file_size] is left at once or never. *)
Definition downloadFile `{Http} (url save_path exists_action : string)
    (num_connections : Z) (v : bool) : M unit :=
  when v (print (newline +:+ "downloading " +:+ url));;
  let fname := getFileBaseName url true in
  let save_dir := OsPath.dirname save_path in
  let save_fname := download_save_fname url save_path in
  isd ← os_path_isdir save_dir;
  when (negb isd) (os_makedirs save_dir);;
  ex ← os_path_exists save_fname;
  if ex && PyStr.eqb exists_action "skip" then
    when v (print ("File exists, skipping: " +:+ save_fname))
  else
    when (ex && PyStr.eqb exists_action "overwrite") (os_remove save_fname);;
    response ← requests_head url;
    let file_size := default 0 response in
    resuming ← (if PyStr.eqb exists_action "resume"
                 then os_path_exists save_fname else mret false);
    initial_pos ← (if (resuming : bool) then os_path_getsize save_fname else mret 0);
    if resuming && (file_size <=? initial_pos) then
      when v (print ("File already completed: " +:+ save_fname))
    else if num_connections =? 0 then raise ZeroDivisionError
    else
      let chunks := download_chunks file_size initial_pos num_connections in
      let temp_files := download_temp_files save_fname num_connections in
      if num_connections <? 0
      then raise (ValueError "max_workers must be greater than 0")
      else
        run_workers url (zip chunks temp_files);;
        (if initial_pos <? file_size then
           current ← sum_part_sizes temp_files;
           if current <? file_size then diverge else mret tt
         else mret tt);;
        outfile ← open_write save_fname (if 0 <? initial_pos then ModeA else ModeW);
        merge_parts outfile temp_files.

(** ** Numeric libraries *)

Local Open Scope float_scope.

(** The numpy reductions and functions the code calls, on [float64]
    arrays: [numpy.sum], [numpy.mean], [numpy.std],
    [numpy.corrcoef(x, y)[0, 1]], [numpy.log], the scalar power [x ** 2],
    [numpy.arange(start, stop, step)] and [str(x)]. *)
Class Numpy : Type := {
  np_sum : list float -> float;
  np_mean : list float -> float;
  np_std : list float -> float;
  np_corrcoef : list float -> list float -> float;
  np_log : float -> float;
  np_scalar_sq : float -> float;
  np_arange : float -> float -> float -> list float;
  float_str : float -> string
}.

Definition py_nan : float := nan.
Definition py_inf : float := infinity.

(** [a != 0] on floats: true for a NaN. *)
Definition float_ne0 (a : float) : bool := negb (PrimFloat.eqb a 0).

(** [min(a, b)] and [max(a, b)] of Python: the first argument unless the
    second is strictly smaller (larger). *)
Definition py_min (a b : float) : float := if PrimFloat.ltb b a then b else a.
Definition py_max (a b : float) : float := if PrimFloat.ltb a b then b else a.

(** Elementwise array arithmetic; [arr ** 2] is the elementwise
    square. *)
Fixpoint arr_map2 (f : float -> float -> float) (xs ys : list float) : list float :=
  match xs, ys with
  | x :: xs', y :: ys' => f x y :: arr_map2 f xs' ys'
  | _, _ => []
  end.
Definition arr_sub (xs ys : list float) : list float := arr_map2 PrimFloat.sub xs ys.
Definition arr_div (xs ys : list float) : list float := arr_map2 PrimFloat.div xs ys.
Definition arr_sub_scalar (xs : list float) (c : float) : list float :=
  map (fun x => x - c) xs.
Definition arr_add_scalar (xs : list float) (c : float) : list float :=
  map (fun x => x + c) xs.
Definition arr_mul_scalar (xs : list float) (c : float) : list float :=
  map (fun x => x * c) xs.
Definition arr_sq (xs : list float) : list float := map (fun x => x * x) xs.
Definition arr_abs (xs : list float) : list float := map PrimFloat.abs xs.

(** [arr[mask]] *)
Fixpoint arr_select {A : Type} (mask : list bool) (xs : list A) : list A :=
  match mask, xs with
  | b :: mask', x :: xs' => if b then x :: arr_select mask' xs' else arr_select mask' xs'
  | _, _ => []
  end.

(** [~(numpy.isnan(obs) | numpy.isnan(sim))] *)
Fixpoint valid_mask (obs sim : list float) : list bool :=
  match obs, sim with
  | o :: obs', s :: sim' =>
      negb (PrimFloat.is_nan o || PrimFloat.is_nan s) :: valid_mask obs' sim'
  | _, _ => []
  end.

Local Close Scope float_scope.

(** ** Grid construction ([ccfx.py]) *)

Definition bounds : Type := (float * float * float * float)%type.

(** geopandas and shapely: reading a file (nothing when the call raises),
    the bounds of a geometry and of a frame, whether a geometry intersects
    the union of others, and the bytes of a frame in a GeoPackage. *)
Class Geopandas : Type := {
  gpd_read_file : World -> string -> option GeoDataFrame;
  geom_bounds : geometry -> bounds;
  gdf_total_bounds : GeoDataFrame -> bounds;
  geom_intersects_union : geometry -> list geometry -> bool;
  gpkg_bytes : GeoDataFrame -> string
}.

(** [gdf.to_crs(epsg=code)]: a frame already in that system is returned
    as it is, a frame without a system cannot be transformed. *)
Definition to_crs (code : Z) (gdf : GeoDataFrame) : M GeoDataFrame :=
  match gdf_crs gdf with
  | None => raise (ValueError "Cannot transform naive geometries.")
  | Some c =>
      if decide (c = EPSG code) then mret gdf
      else mret (mkGdf (Some (EPSG code))
                   (map (Reprojected c (EPSG code)) (gdf_geometry gdf))
                   (gdf_within gdf))
  end.

(** [gdf.to_file(path, driver=driver)] *)
Definition to_file `{Geopandas} (gdf : GeoDataFrame) (path driver : string) : M unit :=
  log_call (GdfToFile path driver gdf);;
  out ← open_write path ModeW;
  file_write out (gpkg_bytes gdf).

Definition getVectorBounds `{Geopandas} (grid_gdf : GeoDataFrame) : bounds :=
  fold_left
    (fun acc geom =>
       let '(minx, miny, maxx, maxy) := acc in
       let '(geom_minx, geom_miny, geom_maxx, geom_maxy) := geom_bounds geom in
       (py_min minx geom_minx, py_min miny geom_miny,
        py_max maxx geom_maxx, py_max maxy geom_maxy))
    (gdf_geometry grid_gdf)
    (py_inf, py_inf, PrimFloat.opp py_inf, PrimFloat.opp py_inf).

(** [arr.reshape((rows, cols))] of a flat array, as a list of rows. *)
Fixpoint reshape {A : Type} (rows cols : nat) (flat : list A) : list (list A) :=
  match rows with
  | O => []
  | S rows' => take cols flat :: reshape rows' cols (drop cols flat)
  end.

Record GridResult : Type := mkGridResult {
  grid_xx : list (list float);
  grid_yy : list (list float);
  grid_polygons : list (list geometry);
  grid_within_mask : list (list bool);
  grid_crs : option crs;
  grid_minx : float;
  grid_miny : float
}.

Definition createGrid `{Geopandas} `{Numpy} (shapefile_path : string) (resolution : float)
    (useDegree : bool) : M GridResult :=
  read ← ask (fun w => gpd_read_file w shapefile_path);
  gdf ← or_raise (OSError "read_file") read;
  gdf ← (if useDegree then to_crs 4326 gdf else mret gdf);
  let '(minx, miny, maxx, maxy) := gdf_total_bounds gdf in
  let x := np_arange minx maxx resolution in
  let y := np_arange miny maxy resolution in
  let xx := map (fun _ => x) y in
  let yy := map (fun yi => map (fun _ => yi) x) y in
  let polygons :=
    map (fun yi => map (fun xj =>
           Box xj yi (PrimFloat.add xj resolution) (PrimFloat.add yi resolution)) x) y in
  let flat_polygons := concat polygons in
  let grid_gdf := mkGdf (gdf_crs gdf) flat_polygons None in
  let '(minx, miny, maxx, maxy) := gdf_total_bounds grid_gdf in
  print ("   minx: " +:+ float_str minx +:+ " miny: " +:+ float_str miny
           +:+ " maxx: " +:+ float_str maxx +:+ " maxy: " +:+ float_str maxy);;
  let '(minx, miny, maxx, maxy) := getVectorBounds grid_gdf in
  let within :=
    map (fun cell => geom_intersects_union cell (gdf_geometry gdf)) flat_polygons in
  let grid_gdf := mkGdf (gdf_crs grid_gdf) (gdf_geometry grid_gdf) (Some within) in
  let within_mask := reshape (length y) (length x) within in
  reprojectedGrid ← to_crs 4326 grid_gdf;
  to_file grid_gdf "generatedGrid4326.gpkg" "GPKG";;
  to_file reprojectedGrid "generatedGrid.gpkg" "GPKG";;
  mret (mkGridResult xx yy polygons within_mask (gdf_crs gdf) minx miny).

(** ** Timeseries statistics ([ccfx.py]) *)

Local Open Scope float_scope.

(** A column of a [DataFrame]: its name, whether its dtype is
    [datetime64[ns]], and its values. *)
Record column : Type := mkColumn {
  col_name : string;
  col_is_datetime : bool;
  col_values : list float
}.

Definition DataFrame : Type := list column.

(** [data.set_index(col).resample(rule).mean()]; nothing when pandas
    raises. *)
Class Pandas : Type := pd_resample_mean : DataFrame -> string -> string -> option DataFrame.

Record TimeseriesStats : Type := mkStats {
  NSE : float; KGE : float; PBIAS : float; LNSE : float; R2 : float;
  RMSE : float; MAE : float; MSE : float; MAPE : float;
  alpha : float; beta : float
}.

Definition nan_stats : TimeseriesStats :=
  mkStats py_nan py_nan py_nan py_nan py_nan py_nan py_nan py_nan py_nan py_nan py_nan.

(** The sum of squared deviations of the observed series from its mean,
    [numpy.sum((obs - numpy.mean(obs)) ** 2)]. *)
Definition nse_denominator `{Numpy} (obs : list float) : float :=
  np_sum (arr_sq (arr_sub_scalar obs (np_mean obs))).

(** [numpy.sum((obs - sim) ** 2)] *)
Definition sum_sq_diff `{Numpy} (obs sim : list float) : float :=
  np_sum (arr_sq (arr_sub obs sim)).

(** The body of the [try] block.  [eps] is the [float64] nearest to
    0.0001. *)
Definition compute_stats `{Numpy} (obs sim : list float) : TimeseriesStats :=
  let denominator := nse_denominator obs in
  let nse := if float_ne0 denominator
             then 1 - sum_sq_diff obs sim / denominator else py_nan in
  let r := np_corrcoef obs sim in
  let obs_std := np_std obs in
  let sim_std := np_std sim in
  let obs_mean := np_mean obs in
  let sim_mean := np_mean sim in
  let alpha := if float_ne0 obs_std then sim_std / obs_std else py_nan in
  let beta := if float_ne0 obs_mean then sim_mean / obs_mean else py_nan in
  let kge :=
    if negb (existsb PrimFloat.is_nan [r; alpha; beta])
    then 1 - PrimFloat.sqrt (np_scalar_sq (r - 1) + np_scalar_sq (alpha - 1)
                               + np_scalar_sq (beta - 1))
    else py_nan in
  let pbias := if float_ne0 (np_sum obs)
               then 100 * np_sum (arr_sub sim obs) / np_sum obs else py_nan in
  let eps := 0x1.a36e2eb1c432dp-14 in
  let log_obs := map np_log (arr_add_scalar obs eps) in
  let log_sim := map np_log (arr_add_scalar sim eps) in
  let log_denominator := np_sum (arr_sq (arr_sub_scalar log_obs (np_mean log_obs))) in
  let lnse := if float_ne0 log_denominator
              then 1 - np_sum (arr_sq (arr_sub log_obs log_sim)) / log_denominator
              else py_nan in
  let r2 := if negb (PrimFloat.is_nan r) then np_scalar_sq r else py_nan in
  let rmse := PrimFloat.sqrt (np_mean (arr_sq (arr_sub obs sim))) in
  let mae := np_mean (arr_abs (arr_sub obs sim)) in
  let mse := np_mean (arr_sq (arr_sub obs sim)) in
  let mape := np_mean (arr_mul_scalar (arr_abs (arr_div (arr_sub obs sim) obs)) 100) in
  let mape := if PrimFloat.is_infinity mape then py_nan else mape in
  mkStats nse kge pbias lnse r2 rmse mae mse mape alpha beta.

Local Close Scope float_scope.

(** The resampling rules. *)
Definition resample_options : list (string * string) :=
  [("H", "1H"); ("D", "1D"); ("M", "1M"); ("Y", "1Y")].

Definition has_column (data : DataFrame) (name : string) : bool :=
  existsb (fun c => PyStr.eqb (col_name c) name) data.

(** [data[name].values]: a missing column is a [KeyError]; a timestamp
    column is outside the numeric model and answered with a
    [TypeError]. *)
Definition get_series (data : DataFrame) (name : string) : M (list float) :=
  match List.find (fun c => PyStr.eqb (col_name c) name) data with
  | None => raise KeyError
  | Some c => if col_is_datetime c then raise TypeError else mret (col_values c)
  end.

(** From [# Extract data] on: the rows with a NaN are dropped, an empty
    rest is a [ValueError], and the statistics are computed inside the
    [try]. *)
Definition stats_of_series `{Numpy} (obs sim : list float) : M TimeseriesStats :=
  let mask := valid_mask obs sim in
  let obs := arr_select mask obs in
  let sim := arr_select mask sim in
  if (length obs =? 0)%nat then
    raise (ValueError "No valid data points after removing NaN values")
  else
    try_except (mret (compute_stats obs sim))
      (fun e =>
         print ("Warning: Error in statistical calculations: " +:+ exn_str e);;
         mret nan_stats).

Definition calculateTimeseriesStats `{Numpy} `{Pandas} (data : DataFrame)
    (observed simulated resample : option string) : M TimeseriesStats :=
  data ← (if truthy_str resample then
            match dict_get (default EmptyString resample) resample_options with
            | None => raise (ValueError "Invalid resample option.")
            | Some rule =>
                if negb (has_column data "date") then
                  match List.find col_is_datetime data with
                  | Some c => or_raise (ValueError "resample")
                                (pd_resample_mean data (col_name c) rule)
                  | None => raise (ValueError "No datetime column found for resampling.")
                  end
                else or_raise (ValueError "resample") (pd_resample_mean data "date" rule)
            end
          else mret data);
  '(data, observed, simulated) ←
    (if negb (truthy_str observed) && negb (truthy_str simulated) then
       let data := List.filter (fun c => negb (col_is_datetime c)) data in
       match data with
       | [c0; c1] => mret (data, col_name c0, col_name c1)
       | _ => raise (ValueError
                       "Could not automatically detect observed and simulated columns")
       end
     else if negb (truthy_str observed) || negb (truthy_str simulated) then
       raise (ValueError
                "Both observed and simulated columns must be specified if one is specified")
     else mret (data, default EmptyString observed, default EmptyString simulated));
  obs ← get_series data observed;
  sim ← get_series data simulated;
  stats_of_series obs sim.

Definition getNSE `{Numpy} `{Pandas} (data : DataFrame)
    (observed simulated resample : option string) : M float :=
  stats ← calculateTimeseriesStats data observed simulated resample;
  mret (NSE stats).

(** ** Notions of the specification *)

(** An extension stem is an extension as [getExtension] returns it: the
    text after the dot, starting with neither a star nor a dot. *)
Definition is_stem (e : string) : bool :=
  negb (PyStr.startswith "*" e) && negb (PyStr.startswith "." e).

(** The access string for a variable of a NetCDF file: [NETCDF:], the
    quoted file path, a colon and the variable name. *)
Definition netcdf_access_string (ncFile variable : string) : string :=
  "NETCDF:" +:+ PyStr.dquote +:+ ncFile +:+ PyStr.dquote +:+ ":" +:+ variable.

(** Whether reading the tags of [fn] gives no [TIT2] frame: the file
    cannot be parsed, it has no tags, or its tags have no such key. *)
Definition lacks_TIT2 `{Mutagen} (w : World) (fn : string) : bool :=
  match mutagen_MP3 w fn with
  | Some (Some tags) => bool_decide (dict_get "TIT2" tags = None)
  | _ => true
  end.

(** The directory that is to hold [p] is there. *)
Definition parent_exists (w : World) (p : string) : bool :=
  is_dir_key w (removelast (resolve w p)).

(** The chunks tile the bytes [from .. last]: each starts where the one
    before it ended, none is empty, and the last one ends at [last]. *)
Fixpoint chunks_tile (from last : Z) (chunks : list (Z * Z)) : bool :=
  match chunks with
  | [] => from =? last + 1
  | (start, end_) :: rest =>
      (start =? from) && (start <=? end_) && chunks_tile (end_ + 1) last rest
  end.

(** A computation started in the working directory [dir] keeps it and
    leaves every file-system entry outside [K] as it was; what it
    returns satisfies [Q]. *)
Definition frame {A : Type} (K : list string -> Prop) (dir : list string)
    (m : M A) (Q : A -> Prop) : Prop :=
  forall w, cwd w = dir ->
    cwd (m w).2 = dir
    /\ (forall k, ~ K k -> fs (m w).2 !! k = fs w !! k)
    /\ (forall a, (m w).1 = Ok a -> Q a).


(** A row that counts: at some index neither series holds a NaN. *)
Definition has_valid_row (obs sim : list float) : Prop :=
  exists (i : nat) (o s : float),
    obs !! i = Some o /\ sim !! i = Some s
    /\ PrimFloat.is_nan o = false /\ PrimFloat.is_nan s = false.

(** What a call to [to_file] writes where: the path and the coordinate
    system of the frame. *)
Definition to_file_summary (c : ext_call) : option (string * option crs) :=
  match c with
  | GdfToFile path _ gdf => Some (path, gdf_crs gdf)
  | _ => None
  end.

(** ** Example inputs *)

(** A file system with the directories [data] and [tmp] and the file
    [tmp/a.txt], seen from the root. *)
Definition ex_fs : gmap (list string) node :=
  <[ ["tmp"; "a.txt"] := File "hi" ]> (<[ ["tmp"] := Dir ]> (<[ ["data"] := Dir ]> ∅)).

Definition ex_world : World := mkWorld ex_fs [] [] [].

(** A [glob] that answers with the pattern itself. *)
Definition ex_glob : Glob := fun _ pattern => [pattern].

(** Codecs that leave every line as it is. *)
Definition ex_codecs : Codecs := fun _ line => Some line.

(** A raster engine that opens no source. *)
Definition ex_gdal : Gdal := fun _ _ _ => None.

(** [ex_world] with an older [tmp/file.bin] of 10 bytes and a file
    [tmp/mine.bin] next to it. *)
Definition ex_world_partial : World :=
  mkWorld (<[ ["tmp"; "file.bin"] := File "0123456789" ]>
             (<[ ["tmp"; "mine.bin"] := File "keep" ]> ex_fs)) [] [] [].

(** Tags with an artist and no title, for every file. *)
Definition ex_mutagen : Mutagen :=
  fun _ _ => Some (Some [("TPE1", mkFrame "Some Artist" EmptyString)]).

(** A server with a file of 20 bytes that honours the ranges a download
    over 2 connections asks for, from the start and from byte 10. *)
Definition ex_http : Http := {|
  http_head := fun _ _ => Some (Some 20);
  http_get := fun _ _ headers =>
    match dict_get "Range" headers with
    | Some "bytes=0-9" => Some "0123456789"
    | Some "bytes=10-19" => Some "abcdefghij"
    | Some "bytes=10-14" => Some "abcde"
    | Some "bytes=15-19" => Some "fghij"
    | _ => Some "0123456789abcdefghij"
    end
|}.

(** A server with a file of 6 bytes: a range inside the file is served,
    and a range whose last byte lies before its first is ignored, the
    whole file being sent. *)
Definition ex_http_small : Http := {|
  http_head := fun _ _ => Some (Some 6);
  http_get := fun _ _ headers =>
    match dict_get "Range" headers with
    | Some "bytes=0-1" => Some "01"
    | Some "bytes=2-3" => Some "23"
    | Some "bytes=4-5" => Some "45"
    | _ => Some "012345"
    end
|}.

(** A boundary file in UTM zone 33N whose bounds are the square from
    (0, 0) to (2, 2); a GeoPackage is stood for by the name of the
    coordinate system of its frame. *)
Definition ex_geopandas : Geopandas := {|
  gpd_read_file := fun _ _ => Some (mkGdf (Some (EPSG 32633)) [Shape "boundary"] None);
  geom_bounds := fun g =>
    match g with
    | Box x0 y0 x1 y1 => (x0, y0, x1, y1)
    | _ => (0, 0, 2, 2)%float
    end;
  gdf_total_bounds := fun _ => (0, 0, 2, 2)%float;
  geom_intersects_union := fun _ _ => true;
  gpkg_bytes := fun gdf =>
    match gdf_crs gdf with
    | Some (EPSG code) => "EPSG:" +:+ pretty code
    | Some (WKT text) => text
    | None => "no crs"
    end
|}.

Definition float_of_nat (n : nat) : float :=
  PrimFloat.of_uint63 (Uint63.of_Z (Z.of_nat n)).

(** Sums and means taken from left to right. *)
Definition ex_sum (xs : list float) : float := fold_left PrimFloat.add xs 0%float.
Definition ex_mean (xs : list float) : float :=
  PrimFloat.div (ex_sum xs) (float_of_nat (length xs)).

(** A numpy for the examples: left-to-right sums, the population standard
    deviation, Pearson's coefficient, and an [arange] of two steps.  The
    logarithm and [str] are stand-ins; no example looks at [LNSE] or at
    the printed bounds. *)
Definition ex_numpy : Numpy := {|
  np_sum := ex_sum;
  np_mean := ex_mean;
  np_std := fun xs =>
    PrimFloat.sqrt (ex_mean (arr_sq (arr_sub_scalar xs (ex_mean xs))));
  np_corrcoef := fun xs ys =>
    let dx := arr_sub_scalar xs (ex_mean xs) in
    let dy := arr_sub_scalar ys (ex_mean ys) in
    PrimFloat.div (ex_sum (arr_map2 PrimFloat.mul dx dy))
      (PrimFloat.sqrt (PrimFloat.mul (ex_sum (arr_sq dx)) (ex_sum (arr_sq dy))));
  np_log := fun x => x;
  np_scalar_sq := fun x => PrimFloat.mul x x;
  np_arange := fun start _ step => [start; PrimFloat.add start step];
  float_str := fun _ => "x"
|}.

Definition ex_pandas : Pandas := fun data _ _ => Some data.

(** Observed and simulated flows, the third observation missing. *)
Definition ex_frame : DataFrame :=
  [mkColumn "obs" false [1; 2; nan; 4]%float;
   mkColumn "sim" false [1; 3; 3; 5]%float].


(** ** Reading and copying files ([ccfx.py]) *)

(** [codec.decode(line)]: the decoded line, or nothing when the bytes
    cannot be decoded (the call raises). *)
Class Decoders : Type := bytes_decode : string -> string -> option string.

(** What text mode does to the line ends it reads: a carriage return,
    alone or before a line feed, becomes one line feed. *)
Fixpoint universal_newlines (s : string) : string :=
  match s with
  | EmptyString => EmptyString
  | String c s' =>
      if Ascii.eqb c "013" then
        match s' with
        | String "010" _ => universal_newlines s'
        | _ => String "010" (universal_newlines s')
        end
      else String c (universal_newlines s')
  end.

(** [g.readlines()]: the text cut after every line feed, each line
    keeping its line feed. *)
Fixpoint readlines (s : string) : list string :=
  match s with
  | EmptyString => []
  | String c s' =>
      if Ascii.eqb c "010" then String c EmptyString :: readlines s'
      else match readlines s' with
           | [] => [String c EmptyString]
           | line :: rest => String c line :: rest
           end
  end.

(** [[line.decode(codec) for line in file_text]] *)
Fixpoint decode_lines `{Decoders} (codec : string) (lines : list string) : M (list string) :=
  match lines with
  | [] => mret []
  | l :: rest =>
      match bytes_decode codec l with
      | None => raise (ValueError "decode")
      | Some t => ts ← decode_lines codec rest; mret (t :: ts)
      end
  end.

(** [readFrom]: [None] when the file cannot be opened, else its lines;
    characters are read as the bytes they are stored as. *)
Definition readFrom `{Decoders} (filename : string) (decode_codec : option string)
    (v : bool) : M (option (list string)) :=
  opened ← try_except (data ← read_file filename; mret (Some data))
              (fun _ =>
                 print (tab +:+ "! error reading " +:+ filename
                          +:+ ", make sure the file exists");;
                 mret None);
  match opened with
  | None => mret None
  | Some data =>
      file_text ← match decode_codec with
                   | Some codec => decode_lines codec (readlines data)
                   | None => mret (readlines (universal_newlines data))
                   end;
      when v (print (tab +:+ "> read " +:+ getFileBaseName filename true));;
      mret (Some file_text)
  end.

Definition readFile `{Decoders} (filename : string) (decode_codec : option string)
    (v : bool) : M (option (list string)) :=
  readFrom filename decode_codec v.

(** [open(p, 'rb')]: the file has to be there. *)
Definition open_read (p : string) : M handle :=
  fun w =>
    match lookup_node w p with
    | None => (Raise FileNotFoundError, w)
    | Some Dir => (Raise IsADirectoryError, w)
    | Some (File _) => (Ok (resolve w p), w)
    end.

(** [src.read()] on a file opened for reading: what the file holds at
    the time of the call. *)
Definition handle_read (h : handle) : M string :=
  fun w =>
    match fs w !! h with
    | Some (File d) => (Ok d, w)
    | _ => (Ok EmptyString, w)
    end.

(** [copyFile]: both files are opened, then [src.read()] is evaluated and
    written. *)
Definition copyFile (source destination : string) (v : bool) : M unit :=
  ex ← os_path_exists (OsPath.dirname destination);
  when (negb ex) (createPath (OsPath.dirname destination +:+ "/") false;; mret tt);;
  src ← open_read source;
  dest ← open_write destination ModeW;
  data ← handle_read src;
  file_write dest data;;
  when v (print ("> " +:+ source +:+ " copied to " +:+ tab +:+ " - " +:+ destination)).

(** The directory name [createPath] works on: one trailing backslash
    removed, and a slash appended unless there is one. *)
Definition createPath_dir (pathName : string) : string :=
  let pathName :=
    if PyStr.endswith_char backslash pathName then PyStr.drop_last pathName else pathName in
  if negb (PyStr.endswith_char "/" pathName) then pathName +:+ "/" else pathName.


(** Every line ends with its only line feed and holds no carriage
    return. *)
Definition is_text_line (line : string) : Prop :=
  exists body,
    line = body +:+ newline
    /\ PyStr.contains_char "010" body = false
    /\ PyStr.contains_char "013" body = false.

(** [''.join(lines)] *)
Definition str_concat (lines : list string) : string :=
  foldr String.append EmptyString lines.

(** Decoders that leave every line as it is. *)
Definition ex_decoders : Decoders := fun _ line => Some line.

(** Two lines of text. *)
Definition ex_lines : list string := ["alpha" +:+ newline; "beta" +:+ newline].

(** Whether a row counts: neither value is a NaN. *)
Definition valid_row (row : float * float) : bool :=
  negb (PrimFloat.is_nan row.1 || PrimFloat.is_nan row.2).

(** A frame with a timestamp column before the two series. *)
Definition ex_frame_dated : DataFrame :=
  mkColumn "date" true [0; 1; 2; 3]%float :: ex_frame.


(** ** Numbers and bounds ([ccfx.py]) *)

(** [isBetween] on floats: [if a > b: a, b = b, a], then
    [a <= number <= b]. *)
Definition isBetween (number a b : float) : bool :=
  let '(a, b) := if PrimFloat.ltb b a then (b, a) else (a, b) in
  PrimFloat.leb a number && PrimFloat.leb number b.

(** None of the four bounds is a NaN. *)
Definition no_nan_bounds (b : bounds) : Prop :=
  let '(x0, y0, x1, y1) := b in
  PrimFloat.is_nan x0 = false /\ PrimFloat.is_nan y0 = false
  /\ PrimFloat.is_nan x1 = false /\ PrimFloat.is_nan y1 = false.

(** The rectangle [outer] holds the rectangle [inner]. *)
Definition encloses (outer inner : bounds) : Prop :=
  let '(minx, miny, maxx, maxy) := outer in
  let '(x0, y0, x1, y1) := inner in
  PrimFloat.leb minx x0 = true /\ PrimFloat.leb miny y0 = true
  /\ PrimFloat.leb x1 maxx = true /\ PrimFloat.leb y1 maxy = true.

(** Two cells side by side. *)
Definition ex_cells : GeoDataFrame :=
  mkGdf None [Box 0 0 1 1; Box 1 0 2 1]%float None.

(** As [ex_geopandas], with a boundary file that names no coordinate
    system. *)
Definition ex_geopandas_naive : Geopandas := {|
  gpd_read_file := fun _ _ => Some (mkGdf None [Shape "boundary"] None);
  geom_bounds := geom_bounds (Geopandas := ex_geopandas);
  gdf_total_bounds := gdf_total_bounds (Geopandas := ex_geopandas);
  geom_intersects_union := geom_intersects_union (Geopandas := ex_geopandas);
  gpkg_bytes := gpkg_bytes (Geopandas := ex_geopandas)
|}.

(** The body of the loop of [getVectorBounds]. *)
Definition bounds_step `{Geopandas} (acc : bounds) (geom : geometry) : bounds :=
  let '(minx, miny, maxx, maxy) := acc in
  let '(geom_minx, geom_miny, geom_maxx, geom_maxy) := geom_bounds geom in
  (py_min minx geom_minx, py_min miny geom_miny,
   py_max maxx geom_maxx, py_max maxy geom_maxy).


(** * Properties *)

Ltac munfold :=
  unfold mbind, M_bind, mret, M_ret, bind, ret, raise, diverge, when, ask,
    or_raise, try_except in *.

(** ** Strings *)

Lemma lstrip_cons_same (c : ascii) (s : string) :
  PyStr.lstrip c (String c s) = PyStr.lstrip c s.
Proof. simpl. by rewrite Ascii.eqb_refl. Qed.

Lemma lstrip_not_start (c : ascii) (s : string) :
  PyStr.startswith (String c EmptyString) s = false -> PyStr.lstrip c s = s.
Proof.
  destruct s as [|a s]; [done|]. simpl.
  rewrite (Ascii.eqb_sym c a). by destruct (Ascii.eqb a c).
Qed.

(** ** SQLite helper *)

Lemma insertRow_placeholder_direct (l : list sqlval) :
  insertRow_placeholder l = direct_placeholder l.
Proof.
  unfold insertRow_placeholder, direct_placeholder. f_equal.
  induction l as [|x l IH]; [done|]. simpl. rewrite IH. by destruct (is_None x).
Qed.

Lemma insertRow_values_id (l : list sqlval) : insertRow_values l = l.
Proof.
  unfold insertRow_values. induction l as [|x l IH]; [done|].
  simpl. rewrite IH. by destruct x.
Qed.

(** C9: the placeholders and the bound values [insertRow] computes from
    an ordered value list are one [?] per entry and the list itself, so
    the call is the one that binds the raw list directly, for entries
    that are [None] and for entries that are not. *)
Theorem insertRow_none_handling_is_identity `{Sqlite} (self : sqliteConnection)
    (table_name : string) (l : list sqlval) (d : list (string * sqlval)) (messages : bool) :
  insertRow_placeholder l = direct_placeholder l
  /\ insertRow_values l = l
  /\ insertRow self table_name l d messages = insertRow_direct self table_name l d messages.
Proof.
  split; [apply insertRow_placeholder_direct|].
  split; [apply insertRow_values_id|].
  unfold insertRow, insertRow_direct.
  by rewrite insertRow_placeholder_direct, insertRow_values_id.
Qed.

Lemma listFiles_ext_stem (e : string) :
  is_stem e = true -> listFiles_ext (Some e) = "." +:+ e.
Proof.
  unfold is_stem, listFiles_ext. intros [Hs Hd]%andb_true_iff.
  apply negb_true_iff in Hs, Hd.
  rewrite (lstrip_not_start _ _ Hs). by rewrite Hd.
Qed.

(** ** File listing *)

(** C7: for a directory [path] and an extension stem [e], the spellings
    [e], [.e], [*e] and [*.e] give [listFiles] the same glob pattern and
    the same result, and a path that is no directory gives the empty
    list. *)
Theorem listFiles_spellings_agree `{Glob} (w : World) (path e : string) :
  is_stem e = true ->
  (listFiles_pattern path (Some ("." +:+ e)) = listFiles_pattern path (Some e)
   /\ listFiles_pattern path (Some ("*" +:+ e)) = listFiles_pattern path (Some e)
   /\ listFiles_pattern path (Some ("*." +:+ e)) = listFiles_pattern path (Some e))
  /\ (listFiles path (Some ("." +:+ e)) w = listFiles path (Some e) w
      /\ listFiles path (Some ("*" +:+ e)) w = listFiles path (Some e) w
      /\ listFiles path (Some ("*." +:+ e)) w = listFiles path (Some e) w)
  /\ (forall ext, lookup_node w path <> Some Dir ->
        (listFiles path ext w).1 = Ok []).
Proof.
  intros Hstem.
  assert (Hext : listFiles_ext (Some ("." +:+ e)) = listFiles_ext (Some e)
                 /\ listFiles_ext (Some ("*" +:+ e)) = listFiles_ext (Some e)
                 /\ listFiles_ext (Some ("*." +:+ e)) = listFiles_ext (Some e)).
  { rewrite (listFiles_ext_stem e Hstem).
    apply andb_true_iff in Hstem as [Hs Hd]. apply negb_true_iff in Hs, Hd.
    split; [|split].
    - reflexivity.
    - change ("*" +:+ e) with (String "*" e).
      unfold listFiles_ext. rewrite lstrip_cons_same, (lstrip_not_start _ _ Hs).
      by rewrite Hd.
    - change ("*." +:+ e) with (String "*" (String "." e)).
      unfold listFiles_ext. by rewrite lstrip_cons_same. }
  destruct Hext as (H1 & H2 & H3).
  assert (Hpat : listFiles_pattern path (Some ("." +:+ e)) = listFiles_pattern path (Some e)
                 /\ listFiles_pattern path (Some ("*" +:+ e)) = listFiles_pattern path (Some e)
                 /\ listFiles_pattern path (Some ("*." +:+ e)) = listFiles_pattern path (Some e)).
  { unfold listFiles_pattern. by rewrite H1, H2, H3. }
  split; [exact Hpat|]. destruct Hpat as (P1 & P2 & P3).
  split.
  - unfold listFiles. by rewrite P1, P2, P3.
  - intros ext Hnd. unfold listFiles, os_path_isdir. munfold. simpl.
    destruct (lookup_node w path) as [[|d]|]; try done.
Qed.

Lemma listFiles_spellings_agree_witness :
  is_stem "txt" = true
  /\ listFiles (H := ex_glob) "data" (Some "*.txt") ex_world
     = listFiles (H := ex_glob) "data" (Some "txt") ex_world.
Proof.
  split; [reflexivity|].
  exact (proj2 (proj2 (proj1 (proj2
           (@listFiles_spellings_agree ex_glob ex_world "data" "txt" eq_refl))))).
Defined.

(** The spellings part ways for an extension that brings its own dot. *)
Lemma listFiles_pattern_dotted_extension :
  listFiles_pattern "data" (Some ("." +:+ ".txt")) <> listFiles_pattern "data" (Some ".txt").
Proof. vm_compute. discriminate. Qed.

(** ** NetCDF export *)

Lemma append_dquote_neq (s : string) : s +:+ PyStr.dquote <> s.
Proof.
  induction s as [|a s IH]; simpl; [discriminate|].
  intros [= Heq]. by apply IH.
Qed.

Lemma append_cons (a : ascii) (s t : string) : String a s +:+ t = String a (s +:+ t).
Proof. reflexivity. Qed.

Lemma append_nil_l (t : string) : EmptyString +:+ t = t.
Proof. reflexivity. Qed.

Lemma append_assoc (a b c : string) : (a +:+ b) +:+ c = a +:+ (b +:+ c).
Proof. induction a as [|x a IH]; [done|]. rewrite !append_cons. by rewrite IH. Qed.

Lemma netcdf_input_string_stray_quote (ncFile variable : string) :
  netcdf_input_string ncFile variable
  = netcdf_access_string ncFile variable +:+ PyStr.dquote.
Proof.
  unfold netcdf_input_string, netcdf_access_string.
  by rewrite !append_assoc.
Qed.

(** C6: the string [netcdfExportTif] hands to [gdal.Translate] is the
    access string of the variable followed by one more double quote, so
    it is never the access string itself; shown on the in-memory export
    of any file and variable. *)
Theorem netcdfExportTif_passes_stray_quote `{Gdal} (w : World) (ncFile variable : string) :
  calls (netcdfExportTif ncFile variable None None false w).2
  = calls w ++ [GdalTranslate EmptyString
                  (netcdf_access_string ncFile variable +:+ PyStr.dquote)
                  (Some "MEM") None]
  /\ netcdf_access_string ncFile variable +:+ PyStr.dquote
     <> netcdf_access_string ncFile variable.
Proof.
  split; [|apply append_dquote_neq].
  rewrite <- netcdf_input_string_stray_quote.
  unfold netcdfExportTif, gdal_Translate, log_call. munfold. simpl.
  by destruct (gdal_render _ _ _).
Qed.

(** For the file [a.nc] and the variable [t] the engine is handed the
    access string with a double quote after the [t]. *)
Lemma netcdfExportTif_example :
  calls (netcdfExportTif (H := ex_gdal) "a.nc" "t" None None false ex_world).2
  = [GdalTranslate EmptyString
       ("NETCDF:" +:+ PyStr.dquote +:+ "a.nc" +:+ PyStr.dquote +:+ ":t" +:+ PyStr.dquote)
       (Some "MEM") None].
Proof. vm_compute. reflexivity. Qed.

(** ** Deleting and writing *)

(** C2: [deletePath] ends without a [return]: for every path, flag and
    world it hands back [None], never a boolean. *)
Theorem deletePath_returns_None (w : World) (path : string) (v : bool) :
  (deletePath path v w).1 = Ok PyNone.
Proof.
  unfold deletePath, os_path_exists, shutil_rmtree, print, stdout_write.
  munfold. simpl.
  destruct (lookup_node w path) as [[|d]|] eqn:E; destruct v; cbn; rewrite ?E;
    reflexivity.
Qed.

(** On an existing directory the tree is removed, and the answer is still
    [None]. *)
Lemma deletePath_existing_dir :
  deletePath "tmp" false ex_world
  = (Ok PyNone, mkWorld (<[ ["data"] := Dir ]> ∅) [] [] []).
Proof. vm_compute. reflexivity. Qed.

(** The sibling [deleteFile] returns its flag. *)
Lemma deleteFile_existing_file :
  (deleteFile "tmp/a.txt" false ex_world).1 = Ok true.
Proof. vm_compute. reflexivity. Qed.

Lemma open_write_missing_parent (w : World) (p : string) (mode : open_mode) :
  parent_exists w p = false ->
  exists e, open_write p mode w = (Raise e, w).
Proof.
  unfold parent_exists, open_write. intros Hp.
  destruct (PyStr.eqb p EmptyString); [eauto|].
  destruct (PyStr.endswith_char OsPath.sep p); [eauto|].
  destruct (resolve w p) as [|x k] eqn:Hk; [eauto|].
  rewrite Hp. simpl. eauto.
Qed.

(** C5: when the directory that is to hold [filename] does not exist,
    [writeTo] fails to open the file, reports the error and returns
    [False]; it does not reach [createPath], and the file system is left
    as it was. *)
Theorem writeTo_missing_parent_returns_False `{Codecs} (w : World) (filename : string)
    (file_text : list string) (encode_codec : option string) (v : bool) :
  parent_exists w filename = false ->
  writeTo filename file_text encode_codec v w
  = (Ok false,
     mkWorld (fs w) (cwd w)
       (stdout w ++ [(tab +:+ "! error writing to " +:+ filename) +:+ newline])
       (calls w)).
Proof.
  intros Hp. destruct (open_write_missing_parent w filename ModeW Hp) as [e He].
  unfold writeTo, print, stdout_write. munfold. by rewrite He.
Qed.

Lemma writeTo_missing_parent_returns_False_witness :
  parent_exists ex_world "newdir/out.txt" = false
  /\ (writeTo (H := ex_codecs) "newdir/out.txt" ["a"; "b"] None false ex_world).1 = Ok false
  /\ lookup_node (writeTo (H := ex_codecs) "newdir/out.txt" ["a"; "b"] None false ex_world).2
       "newdir" = None.
Proof.
  split; [vm_compute; reflexivity|].
  rewrite (@writeTo_missing_parent_returns_False ex_codecs ex_world "newdir/out.txt"
             ["a"; "b"] None false); [|vm_compute; reflexivity].
  split; vm_compute; reflexivity.
Defined.

(** With the directory in place the same call writes the lines. *)
Lemma writeTo_existing_parent :
  (writeTo (H := ex_codecs) "tmp/out.txt" ["a"; "b"] None false ex_world).1 = Ok true
  /\ lookup_node (writeTo (H := ex_codecs) "tmp/out.txt" ["a"; "b"] None false ex_world).2
       "tmp/out.txt" = Some (File "ab").
Proof. split; vm_compute; reflexivity. Qed.

(** ** Audio metadata *)

Lemma contains_char_cons_false (c a : ascii) (s : string) :
  PyStr.contains_char c (String a s) = false ->
  Ascii.eqb a c = false /\ PyStr.contains_char c s = false.
Proof. simpl. destruct (Ascii.eqb a c); [discriminate|tauto]. Qed.

Lemma contains_char_app_marker (c : ascii) (s t : string) :
  PyStr.contains_char c (s +:+ String c t) = true.
Proof.
  induction s as [|a s IH].
  - rewrite append_nil_l. simpl. by rewrite Ascii.eqb_refl.
  - rewrite append_cons. simpl. rewrite IH. by destruct (Ascii.eqb a c).
Qed.

Lemma after_last_none (c : ascii) (s : string) :
  PyStr.contains_char c s = false -> PyStr.after_last c s = s.
Proof.
  destruct s as [|a s]; [done|]. intros [Ha Hs]%contains_char_cons_false.
  simpl. by rewrite Hs, Ha.
Qed.

Lemma upto_last_none (c : ascii) (s : string) :
  PyStr.contains_char c s = false -> PyStr.upto_last c s = EmptyString.
Proof.
  destruct s as [|a s]; [done|]. intros [Ha Hs]%contains_char_cons_false.
  simpl. by rewrite Hs, Ha.
Qed.

Lemma after_last_free (c : ascii) (s : string) :
  PyStr.contains_char c (PyStr.after_last c s) = false.
Proof.
  induction s as [|a s IH]; [done|]. simpl.
  destruct (PyStr.contains_char c s) eqn:Hs; [exact IH|].
  destruct (Ascii.eqb a c) eqn:Ha; [exact Hs|].
  simpl. by rewrite Ha.
Qed.

Lemma after_last_app_marker (c : ascii) (s t : string) :
  PyStr.contains_char c t = false ->
  PyStr.after_last c (s +:+ String c t) = t.
Proof.
  intros Ht. induction s as [|a s IH].
  - rewrite append_nil_l. simpl. by rewrite Ht, Ascii.eqb_refl.
  - rewrite append_cons. simpl. by rewrite contains_char_app_marker.
Qed.

Lemma upto_last_app_marker (c : ascii) (s t : string) :
  PyStr.contains_char c t = false ->
  PyStr.upto_last c (s +:+ String c t) = s +:+ String c EmptyString.
Proof.
  intros Ht. induction s as [|a s IH].
  - rewrite !append_nil_l. simpl. by rewrite Ht, Ascii.eqb_refl.
  - rewrite !append_cons. simpl. by rewrite contains_char_app_marker, IH.
Qed.

Lemma drop_last_app_one (s : string) (c : ascii) :
  PyStr.drop_last (s +:+ String c EmptyString) = s.
Proof.
  induction s as [|a s IH]; [done|].
  rewrite append_cons. simpl. rewrite IH.
  destruct s; reflexivity.
Qed.

Lemma all_char_free (c : ascii) (s : string) :
  s <> EmptyString -> PyStr.contains_char c s = false -> PyStr.all_char c s = false.
Proof.
  destruct s as [|a s]; [done|]. intros _ [Ha _]%contains_char_cons_false.
  simpl. by rewrite Ha.
Qed.

Lemma contains_char_app (c : ascii) (s t : string) :
  PyStr.contains_char c (s +:+ t)
  = PyStr.contains_char c s || PyStr.contains_char c t.
Proof.
  induction s as [|a s IH]; [done|].
  rewrite append_cons. simpl. rewrite IH. by destruct (Ascii.eqb a c).
Qed.

(** Removing [.mp3] from a dot-free stem followed by [.mp3] leaves the
    stem. *)
Lemma replace_mp3_stem (stem : string) :
  PyStr.contains_char "." stem = false ->
  PyStr.replace ".mp3" EmptyString (stem +:+ ".mp3") = stem.
Proof.
  unfold PyStr.replace. induction stem as [|a s IH]; [done|].
  intros [Ha Hs]%contains_char_cons_false.
  rewrite append_cons.
  change (PyStr.replace_from ".mp3" EmptyString 0 (String a (s +:+ ".mp3")))
    with (if PyStr.startswith ".mp3" (String a (s +:+ ".mp3"))
          then EmptyString +:+ PyStr.replace_from ".mp3" EmptyString
                                 (String.length ".mp3" - 1) (s +:+ ".mp3")
          else String a (PyStr.replace_from ".mp3" EmptyString 0 (s +:+ ".mp3"))).
  assert (Hsw : PyStr.startswith ".mp3" (String a (s +:+ ".mp3")) = false).
  { change (PyStr.startswith ".mp3" (String a (s +:+ ".mp3")))
      with (if Ascii.eqb "." a then PyStr.startswith "mp3" (s +:+ ".mp3") else false).
    rewrite Ascii.eqb_sym. by rewrite Ha. }
  rewrite Hsw. by rewrite (IH Hs).
Qed.

(** The name without extension of a dot-free, non-empty stem followed by
    [.mp3] is the stem. *)
Lemma splitext_mp3_stem (stem : string) :
  stem <> EmptyString ->
  PyStr.contains_char "." stem = false ->
  PyStr.contains_char "/" stem = false ->
  (OsPath.splitext (stem +:+ ".mp3")).1 = stem.
Proof.
  intros Hne Hdot Hsl.
  assert (Hfree : PyStr.contains_char "/" (stem +:+ ".mp3") = false).
  { rewrite contains_char_app, Hsl. reflexivity. }
  unfold OsPath.splitext, OsPath.basename, OsPath.sep, OsPath.extsep.
  rewrite (after_last_none _ _ Hfree).
  change (stem +:+ ".mp3") with (stem +:+ String "." "mp3").
  rewrite contains_char_app_marker.
  rewrite (upto_last_app_marker "." stem "mp3" eq_refl).
  rewrite drop_last_app_one.
  rewrite (all_char_free _ _ Hne Hdot).
  change (stem +:+ String "." "mp3") with (stem +:+ ".mp3").
  by rewrite (upto_last_none _ _ Hfree).
Qed.

Lemma getFileBaseName_mp3_stem (fn stem : string) :
  OsPath.basename fn = stem +:+ ".mp3" ->
  stem <> EmptyString ->
  PyStr.contains_char "." stem = false ->
  getFileBaseName fn false = stem.
Proof.
  intros Hb Hne Hdot. unfold getFileBaseName. rewrite Hb.
  apply splitext_mp3_stem; [done..|].
  pose proof (after_last_free "/" fn) as Hfree.
  unfold OsPath.basename, OsPath.sep in Hb. rewrite Hb in Hfree.
  rewrite contains_char_app in Hfree. by apply orb_false_iff in Hfree as [? _].
Qed.

Lemma extract_image_returns (tags : id3_tags) (imagePath : string) (w : World) :
  (extract_image tags imagePath w).1 <> Diverge.
Proof.
  induction tags as [|[k f] tags IH]; [done|]. cbn [extract_image].
  destruct (PyStr.startswith "APIC:" k); [|exact IH].
  unfold file_write. munfold.
  destruct (open_write imagePath ModeW w) as [[h|e|] w'] eqn:Ho; simpl; try done.
  - by destruct (fs w' !! h) as [[|d]|].
  - unfold open_write in Ho.
    repeat (match type of Ho with
            | context [if ?b then _ else _] => destruct b
            | context [match ?x with _ => _ end] => destruct x
            end; try discriminate).
Qed.

Lemma tag_or_missing (tags : id3_tags) (key default : string) :
  dict_get key tags = None -> tag_or tags key default = default.
Proof. unfold tag_or. by intros ->. Qed.

(** C8 (amended): when the tags of [fn] have no [TIT2] frame, or cannot
    be read at all, [getMp3Metadata] returns a record whose title is the
    base name of [fn] with every occurrence of [.mp3] removed; this is
    the base name without its extension when the base name is a
    non-empty stem without a dot followed by [.mp3]. *)
Theorem getMp3Metadata_default_title `{Mutagen} (w : World) (fn : string)
    (imagePath : option string) :
  lacks_TIT2 w fn = true ->
  exists md w',
    getMp3Metadata fn imagePath w = (Ok md, w')
    /\ md_title md = PyStr.replace ".mp3" EmptyString (OsPath.basename fn)
    /\ (forall stem,
          OsPath.basename fn = stem +:+ ".mp3" ->
          stem <> EmptyString ->
          PyStr.contains_char "." stem = false ->
          md_title md = getFileBaseName fn false).
Proof.
  intros Hlack.
  cut (exists md w', getMp3Metadata fn imagePath w = (Ok md, w')
                     /\ md_title md = default_title fn).
  { intros (md & w' & Hrun & Ht). exists md, w'. repeat split; [done..|].
    intros stem Hb Hne Hdot.
    rewrite Ht, (getFileBaseName_mp3_stem fn stem Hb Hne Hdot).
    unfold default_title. rewrite Hb. by apply replace_mp3_stem. }
  unfold lacks_TIT2 in Hlack.
  unfold getMp3Metadata, print, stdout_write. munfold. simpl.
  destruct (mutagen_MP3 w fn) as [[tags|]|]; simpl; [|eauto..].
  apply bool_decide_eq_true in Hlack. rewrite (tag_or_missing _ _ _ Hlack).
  destruct imagePath as [p|]; simpl; [|eauto].
  pose proof (extract_image_returns tags p w) as Hret.
  destruct (extract_image tags p w) as [[b|e|] w'']; simpl in *; [|eauto|done].
  destruct b; simpl; eauto.
Qed.

Lemma getMp3Metadata_default_title_witness :
  lacks_TIT2 (H := ex_mutagen) ex_world "album/song.mp3" = true
  /\ exists md w',
       getMp3Metadata (H := ex_mutagen) "album/song.mp3" None ex_world = (Ok md, w')
       /\ md_title md = "song".
Proof.
  split; [reflexivity|].
  destruct (@getMp3Metadata_default_title ex_mutagen ex_world "album/song.mp3" None eq_refl)
    as (md & w' & Hrun & Ht & _).
  exists md, w'. split; [exact Hrun|]. rewrite Ht. reflexivity.
Defined.

(** The claim as stated fails on an upper-case extension: the title of
    [album/TRACK01.MP3] stays [TRACK01.MP3], while the base name without
    extension is [TRACK01]. *)
Lemma getMp3Metadata_title_keeps_other_extension :
  ~ (forall (H : Mutagen) (w : World) (fn : string) (imagePath : option string),
       lacks_TIT2 w fn = true ->
       exists md w',
         getMp3Metadata fn imagePath w = (Ok md, w')
         /\ md_title md = getFileBaseName fn false).
Proof.
  intros Hclaim.
  destruct (Hclaim ex_mutagen ex_world "album/TRACK01.MP3" None eq_refl)
    as (md & w' & Hrun & Ht).
  vm_compute in Hrun. injection Hrun as Hmd _. subst md.
  vm_compute in Ht. discriminate Ht.
Qed.

(** ** The chunked downloader *)

Lemma ceil_div_bounds (a b : Z) :
  0 < b -> b * ceil_div a b - b < a <= b * ceil_div a b.
Proof.
  intros Hb. unfold ceil_div.
  pose proof (Z.div_mod (- a) b ltac:(lia)) as Hdm.
  pose proof (Z.mod_pos_bound (- a) b Hb) as Hm.
  nia.
Qed.

Lemma py_range_seq (k m : nat) :
  map Z.of_nat (seq k (S m)) = Z.of_nat k :: map Z.of_nat (seq (S k) m).
Proof. reflexivity. Qed.

(** The chunks from index [k] on tile the bytes from their first start,
    as long as the last chunk still starts inside the file. *)
Lemma chunks_tile_from (file_size initial_pos cs : Z) (m k : nat) :
  0 < cs ->
  initial_pos + (Z.of_nat k + Z.of_nat m) * cs < file_size ->
  file_size <= initial_pos + (Z.of_nat k + Z.of_nat m + 1) * cs ->
  chunks_tile (initial_pos + Z.of_nat k * cs) (file_size - 1)
    (map (fun i =>
            let start := initial_pos + (i * cs) in
            let end_ := Z.min (start + cs - 1) (file_size - 1) in
            (start, end_))
         (map Z.of_nat (seq k (S m)))) = true.
Proof.
  revert k. induction m as [|m IH]; intros k Hcs Hlo Hhi.
  - simpl. rewrite Z.eqb_refl. simpl.
    apply andb_true_iff. split; [apply Z.leb_le; lia|].
    apply Z.eqb_eq. lia.
  - rewrite py_range_seq. cbn [map chunks_tile].
    rewrite Z.eqb_refl. cbn [andb].
    apply andb_true_iff. split; [apply Z.leb_le; lia|].
    replace (Z.min (initial_pos + Z.of_nat k * cs + cs - 1) (file_size - 1) + 1)
      with (initial_pos + Z.of_nat (S k) * cs) by lia.
    apply IH; [done|lia..].
Qed.

(** Where the split is sound: with a positive remainder and at least one
    connection, the chunks tile the remaining bytes whenever the last
    chunk starts inside the file, as it does for a remainder above
    [(n-1)^2]. *)
Lemma download_chunks_tile (file_size initial_pos n : Z) :
  initial_pos < file_size ->
  1 <= n ->
  (n - 1) * download_chunk_size file_size initial_pos n < file_size - initial_pos ->
  chunks_tile initial_pos (file_size - 1) (download_chunks file_size initial_pos n) = true
  /\ length (download_chunks file_size initial_pos n) = Z.to_nat n.
Proof.
  intros Hpos Hn Hlast. unfold download_chunks, py_range.
  split; [|by rewrite !length_map, length_seq].
  unfold download_chunk_size in *.
  pose proof (ceil_div_bounds (file_size - initial_pos) n ltac:(lia)) as Hc.
  set (cs := ceil_div (file_size - initial_pos) n) in *.
  assert (Hcs : 0 < cs) by nia.
  destruct (Z.to_nat n) as [|m] eqn:Hm; [lia|].
  replace initial_pos with (initial_pos + Z.of_nat 0 * cs) at 1 by lia.
  apply chunks_tile_from; [done|..]; nia.
Qed.

Lemma download_chunks_tile_large (file_size initial_pos n : Z) :
  1 <= n ->
  (n - 1) * (n - 1) < file_size - initial_pos ->
  chunks_tile initial_pos (file_size - 1) (download_chunks file_size initial_pos n) = true.
Proof.
  intros Hn Hbig. apply download_chunks_tile; [nia|done|].
  unfold download_chunk_size.
  pose proof (ceil_div_bounds (file_size - initial_pos) n ltac:(lia)) as Hc.
  nia.
Qed.

(** C4: on a file of 6 bytes fetched from offset 0 over the default 5
    connections the chunk size is 2, and the loop yields the chunks
    (6, 5) and (8, 5), whose start lies beyond their end and beyond the
    file: the chunks do not tile the bytes 0..5, and the workers ask for
    [bytes=6-5] and [bytes=8-5]. *)
Theorem download_chunks_small_file :
  download_chunks 6 0 5 = [(0, 1); (2, 3); (4, 5); (6, 5); (8, 5)]
  /\ chunks_tile 0 5 (download_chunks 6 0 5) = false
  /\ map (fun c => range_header c.1 c.2) (download_chunks 6 0 5)
     = ["bytes=0-1"; "bytes=2-3"; "bytes=4-5"; "bytes=6-5"; "bytes=8-5"].
Proof. repeat split; vm_compute; reflexivity. Qed.

(** ** Frame rules *)

Section Frame.
Context {K : list string -> Prop} {dir : list string}.



















Lemma foldr_insert_dir_other (qs : list (list string)) (m : gmap (list string) node)
    (k : list string) :
  k ∉ qs -> foldr (fun q m => <[q := Dir]> m) m qs !! k = m !! k.
Proof.
  induction qs as [|q qs IH]; [done|]. intros Hk. cbn.
  apply not_elem_of_cons in Hk as [Hne Hk].
  rewrite lookup_insert_ne by done. by apply IH.
Qed.


End Frame.

(** ** What the downloader touches *)

Section DownloadFrame.
Context `{Http} {K : list string -> Prop} {dir : list string}.








End DownloadFrame.




(** ** The file the downloader works on *)






Lemma basename_free (p : string) : PyStr.contains_char "/" (OsPath.basename p) = false.
Proof. apply after_last_free. Qed.




(** A whole download: the bytes arrive in [tmp/file.bin], and nothing is
    put at [tmp/mine.bin]. *)
Lemma downloadFile_example :
  (downloadFile (H := ex_http) "http://host/pub/file.bin" "tmp/mine.bin" "resume" 2 false
     ex_world).1 = Ok tt
  /\ lookup_node
       (downloadFile (H := ex_http) "http://host/pub/file.bin" "tmp/mine.bin" "resume" 2
          false ex_world).2 "tmp/file.bin"
     = Some (File "0123456789abcdefghij")
  /\ lookup_node
       (downloadFile (H := ex_http) "http://host/pub/file.bin" "tmp/mine.bin" "resume" 2
          false ex_world).2 "tmp/mine.bin"
     = None.
Proof. repeat split; vm_compute; reflexivity. Qed.

(** The requests of the workers carry the chunks as their ranges. *)
Lemma downloadFile_example_requests :
  calls (downloadFile (H := ex_http) "http://host/pub/file.bin" "tmp/mine.bin" "resume" 2
           false ex_world).2
  = [HttpHead "http://host/pub/file.bin";
     HttpGet "http://host/pub/file.bin" [("Range", "bytes=0-9")];
     HttpGet "http://host/pub/file.bin" [("Range", "bytes=10-19")]].
Proof. vm_compute. reflexivity. Qed.

(** [overwrite] removes and rewrites the file named after the URL; the
    file at [save_path] stays as it was. *)
Lemma downloadFile_overwrite_example :
  lookup_node
    (downloadFile (H := ex_http) "http://host/pub/file.bin" "tmp/mine.bin" "overwrite" 2
       false ex_world_partial).2 "tmp/file.bin"
  = Some (File "0123456789abcdefghij")
  /\ lookup_node
       (downloadFile (H := ex_http) "http://host/pub/file.bin" "tmp/mine.bin" "overwrite" 2
          false ex_world_partial).2 "tmp/mine.bin"
     = Some (File "keep").
Proof. split; vm_compute; reflexivity. Qed.

(** [skip] looks at the file named after the URL as well. *)
Lemma downloadFile_skip_example :
  downloadFile (H := ex_http) "http://host/pub/file.bin" "tmp/mine.bin" "skip" 2 false
    ex_world_partial
  = (Ok tt, ex_world_partial).
Proof. vm_compute. reflexivity. Qed.

(** [resume] takes its offset, 10, from the size of the file named after
    the URL (the file at [save_path] has 4 bytes).  The part files then
    hold the 10 bytes that were missing, fewer than [file_size], and the
    polling loop does not end. *)
Lemma downloadFile_resume_example :
  calls (downloadFile (H := ex_http) "http://host/pub/file.bin" "tmp/mine.bin" "resume" 2
           false ex_world_partial).2
  = [HttpHead "http://host/pub/file.bin";
     HttpGet "http://host/pub/file.bin" [("Range", "bytes=10-14")];
     HttpGet "http://host/pub/file.bin" [("Range", "bytes=15-19")]]
  /\ (downloadFile (H := ex_http) "http://host/pub/file.bin" "tmp/mine.bin" "resume" 2
        false ex_world_partial).1 = Diverge.
Proof. split; vm_compute; reflexivity. Qed.

(** The file of 6 bytes over 5 connections: the workers of the chunks
    (6, 5) and (8, 5) send ranges the server cannot honour, and the merged
    file holds 18 bytes. *)
Lemma downloadFile_small_file_example :
  lookup_node
    (downloadFile (H := ex_http_small) "http://host/six.bin" "tmp/six.bin" "resume" 5 false
       ex_world).2 "tmp/six.bin"
  = Some (File "012345012345012345").
Proof. vm_compute. reflexivity. Qed.

Lemma open_write_calls (p : string) (mode : open_mode) (w : World) :
  calls (open_write p mode w).2 = calls w /\ (open_write p mode w).1 <> Diverge.
Proof.
  unfold open_write.
  destruct (PyStr.eqb p EmptyString); [done|].
  destruct (PyStr.endswith_char OsPath.sep p); [done|].
  destruct (resolve w p) as [|x k]; [done|].
  destruct (negb _); [done|].
  by destruct (fs w !! (x :: k)) as [[|d]|], mode.
Qed.

Lemma file_write_calls (h : handle) (data : string) (w : World) :
  calls (file_write h data w).2 = calls w /\ (file_write h data w).1 = Ok tt.
Proof. unfold file_write. by destruct (fs w !! h) as [[|d]|]. Qed.

Lemma downloadChunk_calls `{Http} (url : string) (start end_ : Z) (path : string)
    (w : World) :
  calls (downloadChunk url start end_ path w).2
  = calls w ++ [HttpGet url [("Range", range_header start end_)]]
  /\ (downloadChunk url start end_ path w).1 <> Diverge.
Proof.
  unfold downloadChunk, requests_get, log_call. munfold. cbn.
  destruct (http_get _ _ _) as [body|]; cbn; [|done].
  match goal with |- context [open_write path ModeW ?w0] =>
    destruct (open_write_calls path ModeW w0) as [Hc Hd];
    destruct (open_write path ModeW w0) as [[h|e|] w'] end; cbn in *; [|done..].
  destruct (file_write_calls h body w') as [Hc' Hr].
  destruct (file_write h body w') as [r w'']; cbn in *. subst r.
  by rewrite Hc', Hc.
Qed.

(** Each worker sends one request, whose [Range] header is
    [bytes=start-end] for its chunk. *)
Lemma run_workers_requests `{Http} (url : string) (jobs : list ((Z * Z) * string))
    (w : World) :
  calls (run_workers url jobs w).2
  = calls w ++ map (fun j => HttpGet url [("Range", range_header j.1.1 j.1.2)]) jobs.
Proof.
  revert w. induction jobs as [|[[start end_] path] jobs IH]; intros w.
  - cbn. by rewrite app_nil_r.
  - cbn [run_workers map]. unfold mbind, M_bind, bind, try_except.
    destruct (downloadChunk_calls url start end_ path w) as [Hc Hd].
    destruct (downloadChunk url start end_ path w) as [[[]|e|] w'];
      cbn in *; [| |done]; rewrite IH, Hc, <- app_assoc; reflexivity.
Qed.

(** ** Grid construction *)

Lemma bind_Ok_inv {A B} (m : M A) (f : A -> M B) (w w' : World) (b : B) :
  (m ≫= f) w = (Ok b, w') ->
  exists a w1, m w = (Ok a, w1) /\ f a w1 = (Ok b, w').
Proof.
  unfold mbind, M_bind, bind. destruct (m w) as [[a|e|] w1]; [eauto|done..].
Qed.

Lemma to_crs_Ok_inv (code : Z) (gdf gdf' : GeoDataFrame) (w w' : World) :
  to_crs code gdf w = (Ok gdf', w') ->
  w' = w /\ gdf_crs gdf' = Some (EPSG code) /\ gdf_within gdf' = gdf_within gdf.
Proof.
  unfold to_crs. destruct (gdf_crs gdf) as [c|] eqn:Hc; [|done].
  destruct (decide (c = EPSG code)) as [->|]; intros [= <- <-]; by cbn.
Qed.

Lemma to_file_Ok_inv `{Geopandas} (gdf : GeoDataFrame) (path driver : string)
    (w w' : World) :
  to_file gdf path driver w = (Ok tt, w') ->
  calls w' = calls w ++ [GdfToFile path driver gdf].
Proof.
  unfold to_file. intros ([] & w1 & Hlog & Hrest)%bind_Ok_inv.
  apply bind_Ok_inv in Hrest as (out & w2 & Hopen & Hwrite).
  unfold log_call in Hlog. injection Hlog as Hw1. subst w1.
  destruct (open_write_calls path ModeW
              (mkWorld (fs w) (cwd w) (stdout w) (calls w ++ [GdfToFile path driver gdf])))
    as [Hc _].
  rewrite Hopen in Hc. cbn in Hc.
  destruct (file_write_calls out (gpkg_bytes gdf) w2) as [Hc' _].
  rewrite Hwrite in Hc'. cbn in Hc'. by rewrite Hc', Hc.
Qed.

(** Whenever [createGrid] returns, its two calls to [to_file] are these:
    the file named [generatedGrid4326.gpkg] receives the grid in the
    working coordinate system, and [generatedGrid.gpkg] receives its
    EPSG:4326 reprojection. *)
Lemma createGrid_output_files `{Geopandas} `{Numpy} (shapefile_path : string)
    (resolution : float) (useDegree : bool) (w w' : World) (r : GridResult) :
  createGrid shapefile_path resolution useDegree w = (Ok r, w') ->
  exists grid_gdf reprojectedGrid,
    calls w' = calls w ++ [GdfToFile "generatedGrid4326.gpkg" "GPKG" grid_gdf;
                           GdfToFile "generatedGrid.gpkg" "GPKG" reprojectedGrid]
    /\ gdf_crs grid_gdf = grid_crs r
    /\ gdf_crs reprojectedGrid = Some (EPSG 4326).
Proof.
  unfold createGrid.
  intros (read & w1 & Hread & Hrun)%bind_Ok_inv.
  unfold ask in Hread. injection Hread as Hr Hw1. subst read w1.
  apply bind_Ok_inv in Hrun as (gdf0 & w2 & Hgdf0 & Hrun).
  assert (w2 = w) as ->.
  { unfold or_raise in Hgdf0. destruct (gpd_read_file w shapefile_path); [|done].
    by injection Hgdf0. }
  apply bind_Ok_inv in Hrun as (gdf & w3 & Hgdf & Hrun).
  assert (w3 = w) as ->.
  { destruct useDegree; [by apply to_crs_Ok_inv in Hgdf as [-> _]|by injection Hgdf]. }
  destruct (gdf_total_bounds gdf) as [[[minx miny] maxx] maxy].
  match type of Hrun with
  | context [gdf_total_bounds ?g] =>
      destruct (gdf_total_bounds g) as [[[minx' miny'] maxx'] maxy']
  end.
  apply bind_Ok_inv in Hrun as ([] & w4 & Hprint & Hrun).
  unfold print, stdout_write in Hprint. injection Hprint as Hw4. subst w4.
  match type of Hrun with
  | context [getVectorBounds ?g] =>
      destruct (getVectorBounds g) as [[[minx'' miny''] maxx''] maxy'']
  end.
  apply bind_Ok_inv in Hrun as (reprojectedGrid & w5 & Hrep & Hrun).
  apply to_crs_Ok_inv in Hrep as (-> & Hcrs & _).
  apply bind_Ok_inv in Hrun as ([] & w6 & Hfile1 & Hrun).
  apply bind_Ok_inv in Hrun as ([] & w7 & Hfile2 & Hrun).
  injection Hrun as Hr Hw7. subst r w7.
  apply to_file_Ok_inv in Hfile1, Hfile2. cbn in Hfile1.
  eexists _, reprojectedGrid. split; [|split; [|exact Hcrs]].
  - rewrite Hfile2, Hfile1, <- app_assoc. reflexivity.
  - reflexivity.
Qed.

(** C3: for a boundary in UTM zone 33N kept in its own system
    ([useDegree] false), [createGrid] writes the grid in that working
    system to [generatedGrid4326.gpkg] and the EPSG:4326 reprojection to
    [generatedGrid.gpkg]: the two names are exchanged. *)
Theorem createGrid_exchanges_file_names :
  (createGrid (H := ex_geopandas) (H0 := ex_numpy) "boundary.shp" 1%float false ex_world).1
    ≠ Diverge
  /\ omap to_file_summary
       (calls (createGrid (H := ex_geopandas) (H0 := ex_numpy) "boundary.shp" 1%float false
                 ex_world).2)
     = [("generatedGrid4326.gpkg", Some (EPSG 32633));
        ("generatedGrid.gpkg", Some (EPSG 4326))]
  /\ lookup_node
       (createGrid (H := ex_geopandas) (H0 := ex_numpy) "boundary.shp" 1%float false
          ex_world).2 "generatedGrid.gpkg"
     = Some (File "EPSG:4326")
  /\ lookup_node
       (createGrid (H := ex_geopandas) (H0 := ex_numpy) "boundary.shp" 1%float false
          ex_world).2 "generatedGrid4326.gpkg"
     = Some (File "EPSG:32633").
Proof. repeat split; vm_compute; try reflexivity; discriminate. Qed.

(** ** Timeseries statistics *)


Lemma truthy_str_Some (s : string) :
  s <> EmptyString -> truthy_str (Some s) = true.
Proof.
  intros Hs. unfold truthy_str, PyStr.eqb. by rewrite (bool_decide_eq_false_2 _ Hs).
Qed.



(** A constant observed series whose mean is computed exactly has a zero
    denominator, and its NSE is NaN. *)
Lemma NSE_constant_series_example :
  nse_denominator (H := ex_numpy) [2; 2; 2]%float = 0%float
  /\ exists stats,
       (stats_of_series (H := ex_numpy) [2; 2; 2]%float [1; 2; 3]%float ex_world).1
       = Ok stats
       /\ NSE stats = nan.
Proof. split; [vm_compute; reflexivity|]. eexists. split; vm_compute; reflexivity. Qed.

(** The denominator is the one the floats give: for three observations
    of 0.1 (the float [0x1.999999999999ap-4]) summed from left to right
    the mean is the next float above 0.1, the denominator is not zero,
    and the NSE of the series against itself is 1. *)
Lemma NSE_constant_series_rounded_mean :
  float_ne0
    (nse_denominator (H := ex_numpy)
       [0x1.999999999999ap-4; 0x1.999999999999ap-4; 0x1.999999999999ap-4]%float) = true
  /\ exists stats,
       (stats_of_series (H := ex_numpy)
          [0x1.999999999999ap-4; 0x1.999999999999ap-4; 0x1.999999999999ap-4]%float
          [0x1.999999999999ap-4; 0x1.999999999999ap-4; 0x1.999999999999ap-4]%float
          ex_world).1 = Ok stats
       /\ NSE stats = 1%float.
Proof. split; [vm_compute; reflexivity|]. eexists. split; vm_compute; reflexivity. Qed.

(** * Further properties of the code *)

(** ** Deleting *)






(** ** Creating directories *)

Lemma endswith_char_app_one (c : ascii) (s : string) :
  PyStr.endswith_char c (s +:+ String c EmptyString) = true.
Proof.
  induction s as [|a s IH]; [cbn; apply Ascii.eqb_refl|].
  rewrite append_cons. cbn [PyStr.endswith_char].
  destruct (s +:+ String c EmptyString) eqn:Hs; [by destruct s|exact IH].
Qed.

Lemma drop_last_endswith (c : ascii) (s : string) :
  PyStr.endswith_char c s = true ->
  PyStr.drop_last s +:+ String c EmptyString = s.
Proof.
  induction s as [|a s IH]; [done|]. cbn [PyStr.endswith_char PyStr.drop_last].
  destruct s as [|b s'].
  - intros ->%Ascii.eqb_eq. reflexivity.
  - intros Hs. rewrite append_cons. by rewrite (IH Hs).
Qed.

Lemma createPath_dir_slash (pathName : string) :
  PyStr.endswith_char "/" (createPath_dir pathName) = true.
Proof.
  unfold createPath_dir.
  set (base := if PyStr.endswith_char backslash pathName
               then PyStr.drop_last pathName else pathName).
  destruct (PyStr.endswith_char "/" base) eqn:Hs; cbn [negb]; [exact Hs|].
  apply (endswith_char_app_one "/").
Qed.

Lemma createPath_unfold (pathName : string) (v : bool) :
  pathName <> EmptyString ->
  createPath pathName v
  = (isd ← os_path_isdir (createPath_dir pathName);
     when (negb isd)
       (os_makedirs (createPath_dir pathName);;
        when v (print (tab +:+ "> created path: " +:+ createPath_dir pathName)));;
     mret (PyStr.drop_last (createPath_dir pathName))).
Proof.
  intros Hne. unfold createPath.
  unfold PyStr.eqb at 1. rewrite (bool_decide_eq_false_2 _ Hne).
  fold (createPath_dir pathName). by rewrite createPath_dir_slash.
Qed.

Lemma key_prefixes_self (k : list string) : k <> [] -> k ∈ key_prefixes k.
Proof.
  induction k as [|x k IH]; [done|]. intros _. cbn.
  destruct k as [|y k]; [by left|].
  right. apply list_elem_of_fmap. exists (y :: k). split; [done|]. by apply IH.
Qed.

Lemma foldr_insert_dir_in (qs : list (list string)) (m : gmap (list string) node)
    (k : list string) :
  k ∈ qs -> foldr (fun q m => <[q := Dir]> m) m qs !! k = Some Dir.
Proof.
  induction qs as [|q qs IH]; [by intros ?%elem_of_nil|].
  intros Hk. cbn. destruct (decide (q = k)) as [->|Hne].
  - apply lookup_insert_eq.
  - rewrite lookup_insert_ne by done. apply IH.
    apply elem_of_cons in Hk as [->|Hk]; done.
Qed.




(** What a successful [os.makedirs] leaves behind. *)
Lemma os_makedirs_Ok_inv (w w' : World) (p : string) :
  os_makedirs p w = (Ok tt, w') ->
  cwd w' = cwd w /\ stdout w' = stdout w /\ calls w' = calls w
  /\ lookup_node w' p = Some Dir
  /\ (forall q n, fs w !! q = Some n -> fs w' !! q = Some n)
  /\ (forall q d, fs w' !! q = Some (File d) -> fs w !! q = Some (File d)).
Proof.
  unfold os_makedirs. unfold PyStr.eqb at 1.
  destruct (decide (p = EmptyString)) as [->|Hne]; [done|].
  rewrite (bool_decide_eq_false_2 _ Hne).
  destruct (resolve w p) as [|x k] eqn:Hk; [done|].
  destruct (bool_decide (is_Some (fs w !! (x :: k)))) eqn:Hsome; [done|].
  apply bool_decide_eq_false in Hsome.
  destruct (forallb _ _); [|done]. intros [= <-].
  split; [done|]. split; [done|]. split; [done|].
  assert (Hself : x :: k ∈ filter (fun q => fs w !! q = None) (key_prefixes (x :: k))).
  { apply list_elem_of_filter. split; [|by apply key_prefixes_self].
    destruct (fs w !! (x :: k)) eqn:E; [|done]. by destruct Hsome. }
  split; [|split].
  - unfold lookup_node, resolve, with_fs, PyStr.eqb. cbn [cwd fs].
    rewrite (bool_decide_eq_false_2 _ Hne).
    unfold resolve in Hk. rewrite Hk. by rewrite foldr_insert_dir_in.
  - intros q n Hq. cbn [with_fs fs].
    rewrite foldr_insert_dir_other; [done|].
    intros Hin. apply list_elem_of_filter in Hin as [Hnone _]. congruence.
  - intros q d. cbn [with_fs fs].
    destruct (decide (q ∈ filter (fun q => fs w !! q = None) (key_prefixes (x :: k))))
      as [Hin|Hnin].
    + by rewrite foldr_insert_dir_in.
    + by rewrite foldr_insert_dir_other.
Qed.

(** What a successful [createPath] leaves behind. *)
Lemma createPath_Ok_inv (w w' : World) (pathName r : string) (v : bool) :
  createPath pathName v w = (Ok r, w') ->
  cwd w' = cwd w /\ calls w' = calls w
  /\ (pathName <> EmptyString -> lookup_node w' (createPath_dir pathName) = Some Dir)
  /\ (forall q n, fs w !! q = Some n -> fs w' !! q = Some n)
  /\ (forall q d, fs w' !! q = Some (File d) -> fs w !! q = Some (File d)).
Proof.
  destruct (decide (pathName = EmptyString)) as [->|Hne].
  { intros [= <- <-]. done. }
  rewrite (createPath_unfold _ _ Hne).
  unfold os_path_isdir, print, stdout_write. munfold.
  destruct (lookup_node w (createPath_dir pathName)) as [[|d]|] eqn:E; cbn.
  - intros [= <- <-]. done.
  - destruct (os_makedirs (createPath_dir pathName) w) as [[[]|e|] w1] eqn:Hm; [|done..].
    apply os_makedirs_Ok_inv in Hm as (Hc & Hs & Hcl & Hl & Hp & Hf).
    destruct v; intros [= <- <-]; done.
  - destruct (os_makedirs (createPath_dir pathName) w) as [[[]|e|] w1] eqn:Hm; [|done..].
    apply os_makedirs_Ok_inv in Hm as (Hc & Hs & Hcl & Hl & Hp & Hf).
    destruct v; intros [= <- <-]; done.
Qed.

(** X4: [createPath] is idempotent: after a call that returned, the same
    call changes nothing, prints nothing and returns the same path. *)
Theorem createPath_idempotent (w w' : World) (pathName r : string) (v : bool) :
  createPath pathName v w = (Ok r, w') ->
  createPath pathName v w' = (Ok r, w').
Proof.
  intros Hrun.
  destruct (decide (pathName = EmptyString)) as [->|Hne].
  { injection Hrun as <- <-. reflexivity. }
  pose proof (createPath_Ok_inv _ _ _ _ _ Hrun) as (_ & _ & Hdir & _ & _).
  specialize (Hdir Hne).
  assert (Hr : r = PyStr.drop_last (createPath_dir pathName)).
  { rewrite (createPath_unfold _ _ Hne) in Hrun.
    unfold os_path_isdir, print, stdout_write in Hrun. munfold.
    destruct (lookup_node w (createPath_dir pathName)) as [[|d]|]; cbn in Hrun;
      [by injection Hrun as <- _|..];
      (destruct (os_makedirs (createPath_dir pathName) w) as [[[]|e|] w1]; [|done..]);
      destruct v; by injection Hrun as <- _. }
  rewrite (createPath_unfold _ _ Hne).
  unfold os_path_isdir. munfold. by rewrite Hdir, Hr.
Qed.

Lemma createPath_idempotent_witness :
  exists r w',
    createPath "data/new" true ex_world = (Ok r, w')
    /\ createPath "data/new" true w' = (Ok r, w').
Proof.
  destruct (createPath "data/new" true ex_world) as [[r|e|] w'] eqn:Hrun;
    [|vm_compute in Hrun; discriminate..].
  exists r, w'. split; [reflexivity|].
  exact (createPath_idempotent ex_world w' "data/new" r true Hrun).
Defined.

(** ** Writing, reading and copying *)

Lemma lookup_node_key (w : World) (p : string) (k : list string) (n : node) :
  p <> EmptyString ->
  PyStr.endswith_char OsPath.sep p = false ->
  resolve w p = k -> k <> [] ->
  fs w !! k = Some n ->
  lookup_node w p = Some n.
Proof.
  intros Hne Hsl Hk Hk0 Hfs. unfold lookup_node, PyStr.eqb.
  rewrite (bool_decide_eq_false_2 _ Hne), Hk.
  destruct k as [|x k]; [done|]. rewrite Hfs, Hsl. by destruct n.
Qed.

(** What a successful [open] for writing leaves behind. *)
Lemma open_write_Ok_inv (w w' : World) (p : string) (mode : open_mode) (h : handle) :
  open_write p mode w = (Ok h, w') ->
  h = resolve w p /\ h <> [] /\ p <> EmptyString
  /\ PyStr.endswith_char OsPath.sep p = false
  /\ cwd w' = cwd w /\ stdout w' = stdout w /\ calls w' = calls w
  /\ (exists d, fs w' !! h = Some (File d) /\ (mode = ModeW -> d = EmptyString))
  /\ (forall q, q <> h -> fs w' !! q = fs w !! q).
Proof.
  unfold open_write. unfold PyStr.eqb at 1.
  destruct (decide (p = EmptyString)) as [->|Hne]; [done|].
  rewrite (bool_decide_eq_false_2 _ Hne).
  destruct (PyStr.endswith_char OsPath.sep p) eqn:Hsl; [done|].
  destruct (resolve w p) as [|x k] eqn:Hk; [done|].
  destruct (negb _); [done|].
  destruct (fs w !! (x :: k)) as [[|d]|] eqn:Hfs, mode; try done;
    intros [= <- <-]; cbn [with_fs fs cwd stdout calls];
    repeat (split; [done|]);
    (split; [|try done; by intros q Hq; rewrite lookup_insert_ne]).
  - exists EmptyString. by rewrite lookup_insert_eq.
  - exists d. split; [done|]. discriminate.
  - exists EmptyString. by rewrite lookup_insert_eq.
  - exists EmptyString. by rewrite lookup_insert_eq.
Qed.

Lemma file_writelines_appends (h : handle) (lines : list string) (w : World) (d : string) :
  fs w !! h = Some (File d) ->
  exists w',
    file_writelines h lines w = (Ok tt, w')
    /\ cwd w' = cwd w /\ calls w' = calls w /\ stdout w' = stdout w
    /\ fs w' !! h = Some (File (d +:+ str_concat lines))
    /\ (forall q, q <> h -> fs w' !! q = fs w !! q).
Proof.
  revert w d. induction lines as [|l lines IH]; intros w d Hfs.
  - exists w. repeat split; try done.
    cbn. rewrite Hfs. do 2 f_equal.
    clear. induction d as [|a d IHd]; [done|]. by rewrite append_cons, <- IHd.
  - cbn [file_writelines]. unfold file_write at 1. munfold. rewrite Hfs.
    destruct (IH (with_fs w (<[h := File (d +:+ l)]> (fs w))) (d +:+ l))
      as (w' & Hrun & Hc & Hcl & Hs & Hh & Ho).
    { cbn. apply lookup_insert_eq. }
    exists w'. rewrite Hrun. repeat split; try done.
    + rewrite Hh. cbn. by rewrite append_assoc.
    + intros q Hq. rewrite (Ho q Hq). cbn. by rewrite lookup_insert_ne.
Qed.

Lemma universal_newlines_id (s : string) :
  PyStr.contains_char "013" s = false -> universal_newlines s = s.
Proof.
  induction s as [|c s IH]; [done|].
  intros [Hc Hs]%contains_char_cons_false. cbn [universal_newlines].
  by rewrite Hc, (IH Hs).
Qed.

Lemma readlines_text_line (body rest : string) :
  PyStr.contains_char "010" body = false ->
  readlines ((body +:+ newline) +:+ rest) = (body +:+ newline) :: readlines rest.
Proof.
  induction body as [|c body IH].
  - intros _. reflexivity.
  - intros [Hc Hb]%contains_char_cons_false.
    rewrite !append_cons. cbn [readlines]. by rewrite Hc, (IH Hb).
Qed.

Lemma readlines_text_lines (lines : list string) :
  Forall is_text_line lines -> readlines (str_concat lines) = lines.
Proof.
  induction 1 as [|l lines (body & -> & Hn & _) _ IH]; [done|].
  cbn [str_concat foldr]. fold (str_concat lines).
  by rewrite (readlines_text_line _ _ Hn), IH.
Qed.

Lemma text_lines_no_cr (lines : list string) :
  Forall is_text_line lines -> PyStr.contains_char "013" (str_concat lines) = false.
Proof.
  induction 1 as [|l lines (body & -> & _ & Hr) _ IH]; [done|].
  cbn [str_concat foldr]. fold (str_concat lines).
  by rewrite !contains_char_app, Hr, IH.
Qed.

(** X5: text lines written by [writeTo] are the lines [readFrom] reads
    back: after a [writeTo] that returned [True], [readFrom] on the same
    name returns the very list, and changes no file. *)
Theorem writeTo_readFrom_roundtrip `{Codecs} `{Decoders} (w w' : World)
    (filename : string) (lines : list string) (v v' : bool) :
  Forall is_text_line lines ->
  writeTo filename lines None v w = (Ok true, w') ->
  exists w'',
    readFrom filename None v' w' = (Ok (Some lines), w'')
    /\ fs w'' = fs w'.
Proof.
  intros Hlines Hrun.
  assert (Hfile : lookup_node w' filename = Some (File (str_concat lines))).
  { unfold writeTo, print, stdout_write in Hrun. munfold.
    destruct (open_write filename ModeW w) as [[g|e|] w1] eqn:Ho; [|done..].
    apply open_write_Ok_inv in Ho
      as (Hg & Hg0 & Hne & Hsl & Hc1 & _ & _ & (d & Hd & Hempty) & _).
    rewrite (Hempty eq_refl) in Hd.
    destruct (createPath (OsPath.dirname filename) false w1) as [[r|e|] w2] eqn:Hcp;
      [|done..].
    apply createPath_Ok_inv in Hcp as (Hc2 & _ & _ & Hkeep & _).
    destruct (file_writelines_appends g lines w2 EmptyString (Hkeep _ _ Hd))
      as (w3 & Hw & Hc3 & _ & _ & Hh & _).
    rewrite Hw in Hrun. rewrite append_nil_l in Hh.
    assert (Hres : forall wx, cwd wx = cwd w3 -> fs wx = fs w3 ->
                     lookup_node wx filename = Some (File (str_concat lines))).
    { intros wx Hcx Hfx. apply (lookup_node_key wx filename g); try done.
      - unfold resolve. rewrite Hcx, Hc3, Hc2, Hc1. by rewrite Hg.
      - by rewrite Hfx. }
    destruct v; injection Hrun as <-; by apply Hres. }
  unfold readFrom, read_file, print, stdout_write. munfold. rewrite Hfile.
  rewrite (universal_newlines_id _ (text_lines_no_cr _ Hlines)).
  rewrite (readlines_text_lines _ Hlines).
  destruct v'; eexists; split; reflexivity.
Qed.

Lemma writeTo_readFrom_roundtrip_witness :
  Forall is_text_line ex_lines
  /\ exists w' w'',
       writeTo (H := ex_codecs) "tmp/out.txt" ex_lines None false ex_world = (Ok true, w')
       /\ readFrom (H := ex_decoders) "tmp/out.txt" None false w' = (Ok (Some ex_lines), w'').
Proof.
  assert (Hlines : Forall is_text_line ex_lines).
  { repeat constructor; [exists "alpha"|exists "beta"]; repeat split; reflexivity. }
  split; [exact Hlines|].
  destruct (writeTo (H := ex_codecs) "tmp/out.txt" ex_lines None false ex_world)
    as [[[]|e|] w'] eqn:Hrun; [|vm_compute in Hrun; discriminate..].
  destruct (@writeTo_readFrom_roundtrip ex_codecs ex_decoders ex_world w' "tmp/out.txt"
              ex_lines false false Hlines Hrun) as (w'' & Hread & _).
  exists w', w''. split; [reflexivity|exact Hread].
Defined.

(** What a successful [open] for reading tells. *)
Lemma open_read_Ok_inv (w w' : World) (p : string) (h : handle) :
  open_read p w = (Ok h, w') ->
  w' = w /\ h = resolve w p /\ exists d, lookup_node w p = Some (File d)
                                         /\ fs w !! h = Some (File d).
Proof.
  unfold open_read. destruct (lookup_node w p) as [[|d]|] eqn:E; try done.
  intros [= <- <-]. split; [done|]. split; [done|]. exists d. split; [done|].
  unfold lookup_node in E. destruct (PyStr.eqb p EmptyString); [done|].
  destruct (resolve w p) as [|x k]; [done|].
  destruct (fs w !! (x :: k)) as [[|d']|] eqn:Hf; try done.
  destruct (PyStr.endswith_char OsPath.sep p); [done|].
  injection E as Hd. rewrite <- Hd. exact Hf.
Qed.

Lemma lookup_node_ext (w1 w2 : World) (p : string) :
  cwd w1 = cwd w2 ->
  fs w1 !! resolve w1 p = fs w2 !! resolve w1 p ->
  lookup_node w1 p = lookup_node w2 p.
Proof.
  intros Hc Hfs. unfold lookup_node, resolve in *. rewrite <- Hc.
  destruct (PyStr.eqb p EmptyString); [done|].
  destruct (resolve_from (cwd w1) p) as [|x k]; [done|]. by rewrite Hfs.
Qed.

(** The steps of [copyFile] up to the write, for a call that
    returned. *)
Lemma copyFile_Ok_inv (w w' : World) (source destination : string) (v : bool) :
  copyFile source destination v w = (Ok tt, w') ->
  exists w1 w2 d0 d,
    cwd w1 = cwd w /\ cwd w' = cwd w
    /\ (forall q n, fs w !! q = Some n -> fs w1 !! q = Some n)
    /\ (forall q d, fs w1 !! q = Some (File d) -> fs w !! q = Some (File d))
    /\ lookup_node w1 source = Some (File d0)
    /\ open_write destination ModeW w1 = (Ok (resolve w destination), w2)
    /\ fs w2 !! resolve w source = Some (File d)
    /\ fs w' = <[resolve w destination := File d]> (fs w2).
Proof.
  unfold copyFile. intros (ex & w0 & Hex & Hrun)%bind_Ok_inv.
  unfold os_path_exists in Hex. injection Hex as _ Hw0. subst w0.
  apply bind_Ok_inv in Hrun as ([] & w1 & Hpre & Hrun).
  assert (Hw1 : cwd w1 = cwd w
                /\ (forall q n, fs w !! q = Some n -> fs w1 !! q = Some n)
                /\ (forall q d, fs w1 !! q = Some (File d) -> fs w !! q = Some (File d))).
  { revert Hpre. unfold when. munfold.
    destruct (negb ex); [|by intros [= <-]].
    destruct (createPath _ false w) as [[r|e|] wc] eqn:Hcp; [|done..].
    apply createPath_Ok_inv in Hcp as (Hc & _ & _ & Hk & Hf).
    by intros [= <-]. }
  destruct Hw1 as (Hc1 & Hkeep & Hfile).
  apply bind_Ok_inv in Hrun as (src & w1' & Hsrc & Hrun).
  apply open_read_Ok_inv in Hsrc as (-> & Hsrck & d0 & Hl0 & Hf0).
  apply bind_Ok_inv in Hrun as (dest & w2 & Hdest & Hrun).
  pose proof (open_write_Ok_inv _ _ _ _ _ Hdest)
    as (Hdk & Hd0 & Hdne & Hdsl & Hc2 & _ & _ & (dd & Hdd & Hempty) & Hother).
  apply bind_Ok_inv in Hrun as (data & w3 & Hread & Hrun).
  apply bind_Ok_inv in Hrun as ([] & w4 & Hwrite & Hrun).
  assert (Hsk : src = resolve w source) by (unfold resolve in *; by rewrite <- Hc1).
  assert (Hdk' : dest = resolve w destination) by (unfold resolve in *; by rewrite <- Hc1).
  unfold handle_read in Hread.
  assert (Hdata : w3 = w2 /\ fs w2 !! src = Some (File data)).
  { destruct (decide (src = dest)) as [Heq|Hneq].
    - rewrite Heq, Hdd in Hread |- *. by injection Hread as <- <-.
    - rewrite (Hother src Hneq), Hf0 in Hread |- *. by injection Hread as <- <-. }
  destruct Hdata as [-> Hdata].
  unfold file_write in Hwrite. rewrite Hdd in Hwrite. injection Hwrite as <-.
  rewrite (Hempty eq_refl), append_nil_l in Hrun.
  subst src dest.
  rewrite Hdk' in Hdest, Hdd, Hother, Hd0, Hrun. rewrite Hsk in Hf0, Hdata.
  exists w1, w2, d0, data.
  split; [done|].
  assert (Hfin : cwd w' = cwd w /\ fs w' = <[resolve w destination := File data]> (fs w2)).
  { unfold print, stdout_write, when in Hrun. munfold.
    destruct v; injection Hrun as <-; cbn; by rewrite Hc2, Hc1. }
  destruct Hfin as [Hcw Hfw].
  repeat split; try done.
Qed.

(** X6: after a [copyFile] between two different files that returned,
    the destination holds the bytes the source had, and the source still
    holds them. *)
Theorem copyFile_copies (w w' : World) (source destination : string) (v : bool) :
  copyFile source destination v w = (Ok tt, w') ->
  resolve w source <> resolve w destination ->
  exists d,
    lookup_node w source = Some (File d)
    /\ lookup_node w' source = Some (File d)
    /\ lookup_node w' destination = Some (File d).
Proof.
  intros Hrun Hneq.
  destruct (copyFile_Ok_inv _ _ _ _ _ Hrun)
    as (w1 & w2 & d0 & d & Hc1 & Hc' & Hkeep & Hfile & Hl0 & Hdest & Hsrc & Hfs).
  apply open_write_Ok_inv in Hdest
    as (_ & Hd0 & Hdne & Hdsl & Hc2 & _ & _ & _ & Hother).
  assert (Hsw1 : fs w1 !! resolve w source = Some (File d)).
  { etrans; [symmetry; apply Hother; exact Hneq|exact Hsrc]. }
  assert (Hsw : lookup_node w source = lookup_node w1 source).
  { apply lookup_node_ext; [done|]. by rewrite (Hfile _ _ Hsw1). }
  assert (Hd : d0 = d).
  { unfold lookup_node, resolve in Hl0. rewrite Hc1 in Hl0.
    destruct (PyStr.eqb source EmptyString); [done|].
    unfold resolve in Hsw1.
    destruct (resolve_from (cwd w) source) as [|x k]; [done|].
    rewrite Hsw1 in Hl0. destruct (PyStr.endswith_char OsPath.sep source); [done|].
    by injection Hl0. }
  subst d0. exists d. split; [by rewrite Hsw|]. split.
  - rewrite <- Hl0. symmetry. apply lookup_node_ext; [by rewrite Hc1|].
    unfold resolve. rewrite Hc1. fold (resolve w source).
    rewrite Hfs, lookup_insert_ne by done.
    by rewrite Hsrc.
  - apply (lookup_node_key w' destination (resolve w destination)); try done.
    + unfold resolve. by rewrite Hc'.
    + rewrite Hfs. apply lookup_insert_eq.
Qed.

Lemma copyFile_copies_witness :
  resolve ex_world "tmp/a.txt" <> resolve ex_world "data/copy/a.txt"
  /\ exists w',
       copyFile "tmp/a.txt" "data/copy/a.txt" false ex_world = (Ok tt, w')
       /\ lookup_node w' "data/copy/a.txt" = Some (File "hi").
Proof.
  assert (Hneq : resolve ex_world "tmp/a.txt" <> resolve ex_world "data/copy/a.txt")
    by (vm_compute; discriminate).
  split; [exact Hneq|].
  destruct (copyFile "tmp/a.txt" "data/copy/a.txt" false ex_world)
    as [[[]|e|] w'] eqn:Hrun; [|vm_compute in Hrun; discriminate..].
  destruct (copyFile_copies ex_world w' "tmp/a.txt" "data/copy/a.txt" false Hrun Hneq)
    as (d & Hsrc & _ & Hdst).
  exists w'. split; [reflexivity|].
  rewrite Hdst. rewrite <- Hsrc. reflexivity.
Defined.

(** X7: a [copyFile] of a file onto itself that returned has emptied the
    file: the destination is truncated when it is opened, before the
    source is read. *)
Theorem copyFile_onto_itself_empties (w w' : World) (source destination : string)
    (v : bool) :
  copyFile source destination v w = (Ok tt, w') ->
  resolve w source = resolve w destination ->
  lookup_node w' source = Some (File EmptyString)
  /\ lookup_node w' destination = Some (File EmptyString).
Proof.
  intros Hrun Heq.
  destruct (copyFile_Ok_inv _ _ _ _ _ Hrun)
    as (w1 & w2 & d0 & d & Hc1 & Hc' & Hkeep & Hfile & Hl0 & Hdest & Hsrc & Hfs).
  apply open_write_Ok_inv in Hdest
    as (_ & Hd0 & Hdne & Hdsl & Hc2 & _ & _ & (dd & Hdd & Hempty) & Hother).
  pose proof (Hempty eq_refl) as ->.
  assert (Hd : d = EmptyString).
  { assert (Hx : Some (File d) = Some (File EmptyString)).
    { etrans; [symmetry; exact Hsrc|]. rewrite Heq. exact Hdd. }
    by injection Hx. }
  subst d.
  assert (Hdst : lookup_node w' destination = Some (File EmptyString)).
  { apply (lookup_node_key w' destination (resolve w destination)); try done.
    - unfold resolve. by rewrite Hc'.
    - rewrite Hfs. apply lookup_insert_eq. }
  split; [|exact Hdst].
  assert (Hsne : source <> EmptyString).
  { intros ->. unfold lookup_node in Hl0. by cbn in Hl0. }
  assert (Hssl : PyStr.endswith_char OsPath.sep source = false).
  { unfold lookup_node, resolve in Hl0.
    destruct (PyStr.eqb source EmptyString); [done|].
    destruct (resolve_from (cwd w1) source) as [|x k]; [done|].
    destruct (fs w1 !! (x :: k)) as [[|dx]|]; try done.
    by destruct (PyStr.endswith_char OsPath.sep source). }
  apply (lookup_node_key w' source (resolve w source)); try done.
  - unfold resolve. by rewrite Hc'.
  - by rewrite Heq.
  - rewrite Hfs, Heq. apply lookup_insert_eq.
Qed.

Lemma copyFile_onto_itself_empties_witness :
  resolve ex_world "tmp/a.txt" = resolve ex_world "tmp/./a.txt"
  /\ exists w',
       copyFile "tmp/a.txt" "tmp/./a.txt" false ex_world = (Ok tt, w')
       /\ lookup_node w' "tmp/a.txt" = Some (File EmptyString).
Proof.
  split; [reflexivity|].
  destruct (copyFile "tmp/a.txt" "tmp/./a.txt" false ex_world)
    as [[[]|e|] w'] eqn:Hrun; [|vm_compute in Hrun; discriminate..].
  exists w'. split; [reflexivity|].
  exact (proj1 (copyFile_onto_itself_empties ex_world w' "tmp/a.txt" "tmp/./a.txt" false
                  Hrun eq_refl)).
Defined.

(** ** Names and extensions *)

Lemma upto_after_last (c : ascii) (s : string) :
  PyStr.upto_last c s +:+ PyStr.after_last c s = s.
Proof.
  induction s as [|a s IH]; [done|]. cbn [PyStr.upto_last PyStr.after_last].
  destruct (PyStr.contains_char c s).
  - by rewrite append_cons, IH.
  - by destruct (Ascii.eqb a c).
Qed.

Lemma upto_last_endswith (c : ascii) (s : string) :
  PyStr.contains_char c s = true ->
  PyStr.endswith_char c (PyStr.upto_last c s) = true.
Proof.
  induction s as [|a s IH]; [done|]. cbn [PyStr.contains_char PyStr.upto_last].
  destruct (PyStr.contains_char c s) eqn:Hs.
  - intros _. specialize (IH eq_refl). cbn [PyStr.endswith_char].
    by destruct (PyStr.upto_last c s).
  - destruct (Ascii.eqb a c) eqn:Ha; [|done]. intros _. cbn. exact Ha.
Qed.

Lemma basename_idem (p : string) : OsPath.basename (OsPath.basename p) = OsPath.basename p.
Proof. apply after_last_none, basename_free. Qed.

(** [os.path.splitext] cuts a path in two parts that make up the path. *)
Lemma splitext_concat (p : string) :
  (OsPath.splitext p).1 +:+ (OsPath.splitext p).2 = p.
Proof.
  unfold OsPath.splitext.
  destruct (PyStr.contains_char OsPath.extsep (OsPath.basename p)) eqn:Hdot;
    [|cbn; clear; induction p as [|a p IH]; [done|by rewrite append_cons, IH]].
  destruct (PyStr.all_char OsPath.extsep _);
    [cbn; clear; induction p as [|a p IH]; [done|by rewrite append_cons, IH]|].
  cbn [fst snd]. rewrite append_assoc.
  change (String OsPath.extsep (PyStr.after_last OsPath.extsep (OsPath.basename p)))
    with (String OsPath.extsep EmptyString
            +:+ PyStr.after_last OsPath.extsep (OsPath.basename p)).
  rewrite <- (append_assoc (PyStr.drop_last _)).
  rewrite (drop_last_endswith _ _ (upto_last_endswith _ _ Hdot)).
  rewrite upto_after_last. apply upto_after_last.
Qed.

Lemma splitext_basename_ext (p : string) :
  (OsPath.splitext (OsPath.basename p)).2 = (OsPath.splitext p).2.
Proof.
  unfold OsPath.splitext. rewrite basename_idem.
  destruct (PyStr.contains_char OsPath.extsep (OsPath.basename p)); [|done].
  by destruct (PyStr.all_char OsPath.extsep _).
Qed.

(** X8: the base name of a path is its base name without extension
    followed by the extension [os.path.splitext] finds in the path, and
    neither holds a slash. *)
Theorem getFileBaseName_stem_and_extension (filePath : string) :
  getFileBaseName filePath true
  = getFileBaseName filePath false +:+ (OsPath.splitext filePath).2
  /\ PyStr.contains_char "/" (getFileBaseName filePath true) = false
  /\ PyStr.contains_char "/" (getFileBaseName filePath false) = false.
Proof.
  assert (Heq : getFileBaseName filePath true
                = getFileBaseName filePath false +:+ (OsPath.splitext filePath).2).
  { unfold getFileBaseName. rewrite <- splitext_basename_ext.
    symmetry. apply splitext_concat. }
  split; [exact Heq|].
  assert (Hfree : PyStr.contains_char "/" (getFileBaseName filePath true) = false)
    by apply basename_free.
  split; [exact Hfree|].
  rewrite Heq, contains_char_app in Hfree. by apply orb_false_iff in Hfree as [? _].
Qed.

Lemma after_last_app_free (c : ascii) (s t : string) :
  PyStr.contains_char c t = false ->
  PyStr.after_last c (s +:+ t) = PyStr.after_last c s +:+ t.
Proof.
  intros Ht. induction s as [|a s IH].
  - rewrite !append_nil_l. by apply after_last_none.
  - rewrite append_cons. cbn [PyStr.after_last].
    rewrite contains_char_app, Ht, orb_false_r.
    destruct (PyStr.contains_char c s); [exact IH|].
    by destruct (Ascii.eqb a c).
Qed.

Lemma startswith_char_free (c : ascii) (s : string) :
  PyStr.contains_char c s = false -> PyStr.startswith (String c EmptyString) s = false.
Proof.
  destruct s as [|a s]; [done|]. intros [Ha _]%contains_char_cons_false.
  cbn. rewrite Ascii.eqb_sym. by rewrite Ha.
Qed.

(** X9: [getExtension] gives back the extension a name was given: for a
    path whose last component is not made of dots alone, and an
    extension [e] without dot or slash, the extension of the path
    followed by a dot and [e] is [e]. *)
Theorem getExtension_of_named_file (p e : string) :
  PyStr.all_char "." (OsPath.basename p) = false ->
  PyStr.contains_char "." e = false ->
  PyStr.contains_char "/" e = false ->
  getExtension (p +:+ "." +:+ e) = e.
Proof.
  intros Hstem Hdot Hsl.
  assert (Hbase : OsPath.basename (p +:+ "." +:+ e) = OsPath.basename p +:+ String "." e).
  { unfold OsPath.basename, OsPath.sep. apply after_last_app_free.
    change ("." +:+ e) with (String "." e). cbn [PyStr.contains_char]. by rewrite Hsl. }
  unfold getExtension, OsPath.splitext, OsPath.extsep. rewrite Hbase.
  rewrite contains_char_app_marker, (upto_last_app_marker _ _ _ Hdot), drop_last_app_one.
  rewrite Hstem. cbn [snd]. rewrite (after_last_app_marker _ _ _ Hdot).
  rewrite lstrip_cons_same. by apply lstrip_not_start, startswith_char_free.
Qed.

Lemma getExtension_of_named_file_witness :
  PyStr.all_char "." (OsPath.basename "maps/run.2024") = false
  /\ getExtension ("maps/run.2024" +:+ "." +:+ "tif") = "tif".
Proof.
  split; [reflexivity|].
  apply getExtension_of_named_file; reflexivity.
Defined.

(** ** Timeseries statistics: rows, columns and degenerate series *)

(** X10: the rows [calculateTimeseriesStats] keeps are the rows of the
    two series without a NaN, still paired as they were: the kept
    observed and simulated values, zipped, are the valid rows of the
    zipped series, and the two kept series have one length. *)
Theorem valid_rows_stay_paired (obs sim : list float) :
  zip (arr_select (valid_mask obs sim) obs) (arr_select (valid_mask obs sim) sim)
  = List.filter valid_row (zip obs sim)
  /\ length (arr_select (valid_mask obs sim) obs)
     = length (arr_select (valid_mask obs sim) sim).
Proof.
  split.
  - revert sim. induction obs as [|o obs IH]; intros [|s sim]; try done.
    cbn [valid_mask arr_select zip zip_with List.filter]. unfold valid_row at 1. cbn [fst snd].
    destruct (negb _); cbn; by rewrite IH.
  - revert sim. induction obs as [|o obs IH]; intros [|s sim]; try done.
    cbn [valid_mask arr_select]. destruct (negb _); cbn; by rewrite IH.
Qed.

Lemma no_valid_rows_empty (obs sim : list float) :
  ~ has_valid_row obs sim -> arr_select (valid_mask obs sim) obs = [].
Proof.
  revert sim. induction obs as [|o obs IH]; intros [|s sim] Hno; try done.
  cbn [valid_mask arr_select].
  destruct (PrimFloat.is_nan o || PrimFloat.is_nan s) eqn:Hnan; cbn [negb].
  - apply IH. intros (i & o' & s' & Ho & Hs & Hv). apply Hno.
    by exists (S i), o', s'.
  - destruct Hno. apply orb_false_iff in Hnan as [Hno' Hns].
    by exists 0%nat, o, s.
Qed.

(** X11: when no row of the two series is free of NaN,
    [calculateTimeseriesStats] raises the [ValueError] for missing data
    points and computes no statistics. *)
Theorem calculateTimeseriesStats_no_valid_row `{Numpy} `{Pandas} (w : World)
    (data : DataFrame) (observed simulated : string) (obs sim : list float) :
  observed <> EmptyString ->
  simulated <> EmptyString ->
  get_series data observed w = (Ok obs, w) ->
  get_series data simulated w = (Ok sim, w) ->
  ~ has_valid_row obs sim ->
  calculateTimeseriesStats data (Some observed) (Some simulated) None w
  = (Raise (ValueError "No valid data points after removing NaN values"), w).
Proof.
  intros Ho Hs Hobs Hsim Hno.
  unfold calculateTimeseriesStats.
  rewrite (truthy_str_Some _ Ho), (truthy_str_Some _ Hs).
  munfold. cbn [truthy_str negb andb orb default from_option id].
  rewrite Hobs, Hsim. unfold stats_of_series.
  by rewrite (no_valid_rows_empty _ _ Hno).
Qed.

Lemma calculateTimeseriesStats_no_valid_row_witness :
  ~ has_valid_row [nan; 2]%float [1; nan]%float
  /\ calculateTimeseriesStats (H := ex_numpy) (H0 := ex_pandas)
       [mkColumn "obs" false [nan; 2]%float; mkColumn "sim" false [1; nan]%float]
       (Some "obs") (Some "sim") None ex_world
     = (Raise (ValueError "No valid data points after removing NaN values"), ex_world).
Proof.
  assert (Hno : ~ has_valid_row [nan; 2]%float [1; nan]%float).
  { intros (i & o & s & Ho & Hs & Hvo & Hvs).
    destruct i as [|[|i]]; cbn in Ho, Hs; [| |done].
    - injection Ho as <-. discriminate Hvo.
    - injection Hs as <-. discriminate Hvs. }
  split; [exact Hno|].
  apply (@calculateTimeseriesStats_no_valid_row ex_numpy ex_pandas ex_world _ "obs" "sim"
           [nan; 2]%float [1; nan]%float); try done.
Defined.

Lemma find_by_name (data : DataFrame) (c : column) :
  NoDup (map col_name data) ->
  c ∈ data ->
  List.find (fun c' => PyStr.eqb (col_name c') (col_name c)) data = Some c.
Proof.
  induction data as [|c0 data IH]; [by intros _ ?%elem_of_nil|].
  cbn [map List.find]. intros [Hnotin Hnd]%NoDup_cons Hin. unfold PyStr.eqb at 1.
  apply elem_of_cons in Hin as [->|Hin].
  - by rewrite bool_decide_eq_true_2.
  - rewrite bool_decide_eq_false_2; [by apply IH|].
    intros Heq. apply Hnotin. rewrite Heq. by apply list_elem_of_fmap_2.
Qed.

(** X12: left to find the columns itself, [calculateTimeseriesStats]
    takes the first column that is no timestamp as the observed series
    and the second as the simulated one: on a frame with distinct column
    names of which exactly two are no timestamps, the call without
    names is the call with these two names. *)
Theorem calculateTimeseriesStats_autodetect `{Numpy} `{Pandas} (w : World)
    (data : DataFrame) (c0 c1 : column) :
  List.filter (fun c => negb (col_is_datetime c)) data = [c0; c1] ->
  NoDup (map col_name data) ->
  col_name c0 <> EmptyString ->
  col_name c1 <> EmptyString ->
  calculateTimeseriesStats data None None None w
  = calculateTimeseriesStats data (Some (col_name c0)) (Some (col_name c1)) None w.
Proof.
  intros Hfilter Hnd Hn0 Hn1.
  assert (Hin : forall c, c ∈ [c0; c1] -> c ∈ data /\ col_is_datetime c = false).
  { intros c Hc. rewrite <- Hfilter in Hc.
    apply list_elem_of_In, filter_In in Hc as [Hc Hd].
    split; [by apply list_elem_of_In|by apply negb_true_iff]. }
  destruct (Hin c0 ltac:(apply elem_of_cons; by left)) as [Hin0 Hd0].
  destruct (Hin c1 ltac:(apply elem_of_cons; right; apply elem_of_cons; by left))
    as [Hin1 Hd1].
  assert (Hne : col_name c0 <> col_name c1).
  { assert (Hnd' : NoDup (map col_name [c0; c1])).
    { rewrite <- Hfilter. clear -Hnd. induction data as [|c data IH]; [constructor|].
      cbn in *. apply NoDup_cons in Hnd as [Hnotin Hnd].
      destruct (negb (col_is_datetime c)); cbn; [|by apply IH].
      apply NoDup_cons. split; [|by apply IH].
      intros Hc. apply Hnotin. apply list_elem_of_fmap in Hc as (c' & -> & Hc').
      apply list_elem_of_fmap_2. apply list_elem_of_In in Hc'.
      apply filter_In in Hc' as [Hc' _]. by apply list_elem_of_In. }
    cbn in Hnd'. apply NoDup_cons in Hnd' as [Hnotin _].
    intros Heq. apply Hnotin. rewrite Heq. apply elem_of_cons. by left. }
  unfold calculateTimeseriesStats.
  rewrite (truthy_str_Some _ Hn0), (truthy_str_Some _ Hn1).
  munfold. cbn [truthy_str negb andb orb default from_option id].
  rewrite Hfilter. unfold get_series.
  rewrite (find_by_name data c0 Hnd Hin0), (find_by_name data c1 Hnd Hin1).
  cbn [List.find]. unfold PyStr.eqb.
  rewrite (bool_decide_eq_true_2 (col_name c0 = col_name c0)) by done.
  rewrite (bool_decide_eq_false_2 (col_name c0 = col_name c1)) by done.
  rewrite (bool_decide_eq_true_2 (col_name c1 = col_name c1)) by done.
  reflexivity.
Qed.

Lemma calculateTimeseriesStats_autodetect_witness :
  calculateTimeseriesStats (H := ex_numpy) (H0 := ex_pandas) ex_frame_dated None None None
    ex_world
  = calculateTimeseriesStats (H := ex_numpy) (H0 := ex_pandas) ex_frame_dated
      (Some "obs") (Some "sim") None ex_world.
Proof.
  apply (@calculateTimeseriesStats_autodetect ex_numpy ex_pandas ex_world ex_frame_dated
           (mkColumn "obs" false [1; 2; nan; 4]%float)
           (mkColumn "sim" false [1; 3; 3; 5]%float)); try done.
  apply (bool_decide_unpack _). vm_compute. exact I.
Defined.

(** X13: degenerate series give NaN and no error: a zero standard
    deviation of the observed values makes [alpha] and [KGE] NaN, a zero
    mean makes [beta] and [KGE] NaN, and a zero sum makes [PBIAS] NaN. *)
Theorem compute_stats_degenerate `{Numpy} (obs sim : list float) :
  (PrimFloat.eqb (np_std obs) 0 = true ->
     alpha (compute_stats obs sim) = nan /\ KGE (compute_stats obs sim) = nan)
  /\ (PrimFloat.eqb (np_mean obs) 0 = true ->
        beta (compute_stats obs sim) = nan /\ KGE (compute_stats obs sim) = nan)
  /\ (PrimFloat.eqb (np_sum obs) 0 = true -> PBIAS (compute_stats obs sim) = nan).
Proof.
  unfold compute_stats, float_ne0. cbn [alpha beta KGE PBIAS existsb].
  split; [|split].
  - intros ->. cbn [negb]. split; [done|].
    change (PrimFloat.is_nan py_nan) with true. by rewrite orb_true_r.
  - intros ->. cbn [negb]. split; [done|].
    change (PrimFloat.is_nan py_nan) with true. by rewrite !orb_true_r.
  - by intros ->.
Qed.

Lemma compute_stats_degenerate_witness :
  PrimFloat.eqb (np_std (Numpy := ex_numpy) [2; 2; 2]%float) 0 = true
  /\ KGE (compute_stats (H := ex_numpy) [2; 2; 2]%float [1; 2; 3]%float) = nan.
Proof.
  assert (Hstd : PrimFloat.eqb (np_std (Numpy := ex_numpy) [2; 2; 2]%float) 0 = true)
    by (vm_compute; reflexivity).
  split; [exact Hstd|].
  exact (proj2 (proj1 (@compute_stats_degenerate ex_numpy [2; 2; 2]%float [1; 2; 3]%float)
                  Hstd)).
Defined.

(** ** The downloader: edge cases *)

Lemma dirname_no_slash (p : string) :
  PyStr.contains_char "/" p = false -> OsPath.dirname p = EmptyString.
Proof.
  intros Hp. unfold OsPath.dirname, OsPath.sep. by rewrite (upto_last_none _ _ Hp).
Qed.

(** X14: a [save_path] without a directory part makes [downloadFile]
    raise [FileNotFoundError] from [os.makedirs('')]: no request is sent
    and no file is touched. *)
Theorem downloadFile_bare_name_raises `{Http} (w : World)
    (url save_path exists_action : string) (num_connections : Z) (v : bool) :
  PyStr.contains_char "/" save_path = false ->
  (downloadFile url save_path exists_action num_connections v w).1
  = Raise FileNotFoundError
  /\ fs (downloadFile url save_path exists_action num_connections v w).2 = fs w
  /\ calls (downloadFile url save_path exists_action num_connections v w).2 = calls w.
Proof.
  intros Hp. unfold downloadFile. rewrite (dirname_no_slash _ Hp).
  unfold os_path_isdir, os_makedirs, print, stdout_write. munfold.
  destruct v; cbn; done.
Qed.

Lemma downloadFile_bare_name_raises_witness :
  PyStr.contains_char "/" "file.bin" = false
  /\ (downloadFile (H := ex_http) "http://host/pub/file.bin" "file.bin" "resume" 2 false
        ex_world).1 = Raise FileNotFoundError.
Proof.
  split; [reflexivity|].
  exact (proj1 (@downloadFile_bare_name_raises ex_http ex_world "http://host/pub/file.bin"
                  "file.bin" "resume" 2 false eq_refl)).
Defined.



Lemma os_makedirs_calls (p : string) (w : World) : calls (os_makedirs p w).2 = calls w.
Proof. unfold os_makedirs. repeat case_match; reflexivity. Qed.

Lemma os_remove_calls (p : string) (w : World) : calls (os_remove p w).2 = calls w.
Proof. unfold os_remove. repeat case_match; reflexivity. Qed.

Lemma os_makedirs_not_diverge (p : string) (w : World) : (os_makedirs p w).1 <> Diverge.
Proof. unfold os_makedirs. repeat case_match; discriminate. Qed.

Lemma os_remove_not_diverge (p : string) (w : World) : (os_remove p w).1 <> Diverge.
Proof. unfold os_remove. repeat case_match; discriminate. Qed.

(** X16: with no connection, or a negative number of them, [downloadFile]
    comes back (it returns early or raises) and never asks the server for
    a range: at most the one [HEAD] request is sent. *)
Theorem downloadFile_no_connections `{Http} (w : World)
    (url save_path exists_action : string) (num_connections : Z) (v : bool) :
  num_connections <= 0 ->
  (downloadFile url save_path exists_action num_connections v w).1 <> Diverge
  /\ (calls (downloadFile url save_path exists_action num_connections v w).2 = calls w
      \/ calls (downloadFile url save_path exists_action num_connections v w).2
         = calls w ++ [HttpHead url]).
Proof.
  intros Hn. unfold downloadFile.
  set (save_fname := download_save_fname url save_path).
  set (save_dir := OsPath.dirname save_path).
  unfold requests_head, os_path_isdir, os_path_exists, os_path_getsize, log_call, print,
    stdout_write. munfold. munfold.
  destruct (num_connections =? 0) eqn:E0;
    [|destruct (num_connections <? 0) eqn:E1; [|lia]].
  all: repeat first
    [ progress cbn [fst snd calls fs cwd stdout negb andb default]
    | match goal with
      | |- context [os_makedirs ?p ?w0] =>
          pose proof (os_makedirs_calls p w0);
          pose proof (os_makedirs_not_diverge p w0);
          destruct (os_makedirs p w0) as [[[]|?|] ?]
      | |- context [os_remove ?p ?w0] =>
          pose proof (os_remove_calls p w0);
          pose proof (os_remove_not_diverge p w0);
          destruct (os_remove p w0) as [[[]|?|] ?]
      | |- context [http_head ?w0 ?u] => destruct (http_head w0 u) as [?|]
      | |- context [match lookup_node ?w0 ?p with _ => _ end] =>
          destruct (lookup_node w0 p) as [[]|]
      | |- context [bool_decide ?P] => destruct (bool_decide P)
      | |- context [PyStr.eqb ?a ?b] => destruct (PyStr.eqb a b)
      | |- context [?a <=? ?b] => destruct (a <=? b)
      | |- context [if ?b then _ else _] => is_var b; destruct b
      end ].
  all: cbn [fst snd calls] in *; try congruence.
  all: split; [discriminate|].
  all: (by left) || (by right) || (left; congruence) || (right; congruence).
Qed.

Lemma downloadFile_no_connections_witness :
  0 <= 0
  /\ (downloadFile (H := ex_http) "http://host/pub/file.bin" "tmp/file.bin" "resume" 0
        false ex_world).1 <> Diverge
  /\ (calls (downloadFile (H := ex_http) "http://host/pub/file.bin" "tmp/file.bin"
               "resume" 0 false ex_world).2 = calls ex_world
      \/ calls (downloadFile (H := ex_http) "http://host/pub/file.bin" "tmp/file.bin"
                  "resume" 0 false ex_world).2
         = calls ex_world ++ [HttpHead "http://host/pub/file.bin"]).
Proof.
  split; [lia|].
  apply (@downloadFile_no_connections ex_http ex_world "http://host/pub/file.bin"
           "tmp/file.bin" "resume" 0 false). lia.
Defined.

(** ** NetCDF export: the output directory *)

(** X17: an output file given by its bare name, and not there yet, makes
    [netcdfExportTif] raise [FileNotFoundError] from [os.makedirs('')]
    before the translation is asked for: nothing is written. *)
Theorem netcdfExportTif_bare_output_raises `{Gdal} (w : World)
    (ncFile variable outputFile : string) (band : option Z) (v : bool) :
  outputFile <> EmptyString ->
  PyStr.contains_char "/" outputFile = false ->
  lookup_node w outputFile = None ->
  (netcdfExportTif ncFile variable (Some outputFile) band v w).1 = Raise FileNotFoundError
  /\ fs (netcdfExportTif ncFile variable (Some outputFile) band v w).2 = fs w
  /\ calls (netcdfExportTif ncFile variable (Some outputFile) band v w).2 = calls w.
Proof.
  intros Hne Hp Hnone. unfold netcdfExportTif, truthy_str, PyStr.eqb.
  rewrite bool_decide_eq_false_2 by done. cbn [negb].
  change (default EmptyString (Some outputFile)) with outputFile.
  rewrite (dirname_no_slash _ Hp).
  unfold os_path_exists, os_makedirs, print, stdout_write. munfold.
  assert (Hv : forall s, lookup_node (mkWorld (fs w) (cwd w) s (calls w)) outputFile = None)
    by (intros s; exact Hnone).
  destruct v; cbn; rewrite ?Hv, ?Hnone; cbn; done.
Qed.

Lemma netcdfExportTif_bare_output_raises_witness :
  lookup_node ex_world "out.tif" = None
  /\ (netcdfExportTif (H := ex_gdal) "tmp/a.nc" "pr" (Some "out.tif") None true ex_world).1
     = Raise FileNotFoundError.
Proof.
  split; [reflexivity|].
  exact (proj1 (@netcdfExportTif_bare_output_raises ex_gdal ex_world "tmp/a.nc" "pr"
                  "out.tif" None true ltac:(discriminate) eq_refl eq_refl)).
Defined.

(** ** Float order *)

Lemma SFleb_trans (a b c : spec_float) :
  SFleb a b = true -> SFleb b c = true -> SFleb a c = true.
Proof.
  unfold SFleb, SFcompare.
  destruct a as [[]|[]| |[] ma ea], b as [[]|[]| |[] mb eb], c as [[]|[]| |[] mc ec];
    try done.
  all: destruct (Z.compare_spec ea eb), (Z.compare_spec eb ec), (Z.compare_spec ea ec);
    try done; try lia; subst.
  all: rewrite ?Pos.compare_cont_spec; unfold Pos.switch_Eq; cbn [CompOpp].
  all: destruct (Pos.compare_spec ma mb), (Pos.compare_spec mb mc), (Pos.compare_spec ma mc);
    try done; try lia.
Qed.

Lemma SFltb_not_leb (a b : spec_float) :
  SFltb b a = true -> SFleb a b = false.
Proof.
  unfold SFleb, SFltb, SFcompare.
  destruct a as [[]|[]| |[] ma ea], b as [[]|[]| |[] mb eb]; try done.
  all: rewrite (Z.compare_antisym ea eb); destruct (Z.compare ea eb); cbn [CompOpp]; try done.
  all: rewrite ?Pos.compare_cont_spec; unfold Pos.switch_Eq.
  all: rewrite (Pos.compare_antisym ma mb); destruct (Pos.compare ma mb); done.
Qed.

Lemma SFleb_total (a b : spec_float) :
  SFltb b a = false -> SFleb a b = true \/ a = S754_nan \/ b = S754_nan.
Proof.
  unfold SFleb, SFltb, SFcompare.
  destruct a as [[]|[]| |[] ma ea], b as [[]|[]| |[] mb eb]; try done; auto.
  all: rewrite (Z.compare_antisym ea eb); destruct (Z.compare ea eb); cbn [CompOpp]; try done;
    auto.
  all: rewrite ?Pos.compare_cont_spec; unfold Pos.switch_Eq.
  all: rewrite (Pos.compare_antisym ma mb); destruct (Pos.compare ma mb); try done; auto.
Qed.

Lemma SFltb_leb (a b : spec_float) : SFltb a b = true -> SFleb a b = true.
Proof.
  unfold SFleb, SFltb. by destruct (SFcompare a b) as [[]|].
Qed.

Lemma SFleb_refl (a : spec_float) : a <> S754_nan -> SFleb a a = true.
Proof.
  unfold SFleb, SFcompare. destruct a as [[]|[]| |[] m e]; try done; intros _.
  all: rewrite Z.compare_refl, ?Pos.compare_cont_spec; unfold Pos.switch_Eq;
    by rewrite Pos.compare_refl.
Qed.

Lemma is_nan_false (a : float) : PrimFloat.is_nan a = false -> Prim2SF a <> S754_nan.
Proof.
  unfold PrimFloat.is_nan. rewrite FloatAxioms.eqb_spec. intros Ha E. by rewrite E in Ha.
Qed.

(** Float order, on the primitive operations. *)
Lemma leb_trans (a b c : float) :
  PrimFloat.leb a b = true -> PrimFloat.leb b c = true -> PrimFloat.leb a c = true.
Proof. rewrite !leb_spec. apply SFleb_trans. Qed.

Lemma leb_refl (a : float) : PrimFloat.is_nan a = false -> PrimFloat.leb a a = true.
Proof. intros Ha%is_nan_false. rewrite leb_spec. by apply SFleb_refl. Qed.

Lemma not_ltb_leb (a b : float) :
  PrimFloat.is_nan a = false -> PrimFloat.is_nan b = false ->
  PrimFloat.ltb b a = false -> PrimFloat.leb a b = true.
Proof.
  intros Ha%is_nan_false Hb%is_nan_false. rewrite ltb_spec, leb_spec. intros Hlt.
  by destruct (SFleb_total _ _ Hlt) as [?|[E|E]].
Qed.

Lemma ltb_leb (a b : float) : PrimFloat.ltb a b = true -> PrimFloat.leb a b = true.
Proof. rewrite ltb_spec, leb_spec. apply SFltb_leb. Qed.

Lemma py_min_spec (a b : float) :
  PrimFloat.is_nan a = false -> PrimFloat.is_nan b = false ->
  PrimFloat.is_nan (py_min a b) = false
  /\ PrimFloat.leb (py_min a b) a = true /\ PrimFloat.leb (py_min a b) b = true.
Proof.
  intros Ha Hb. unfold py_min. destruct (PrimFloat.ltb b a) eqn:Hlt.
  - split; [done|]. split; [by apply ltb_leb|by apply leb_refl].
  - split; [done|]. split; [by apply leb_refl|by apply not_ltb_leb].
Qed.

Lemma py_max_spec (a b : float) :
  PrimFloat.is_nan a = false -> PrimFloat.is_nan b = false ->
  PrimFloat.is_nan (py_max a b) = false
  /\ PrimFloat.leb a (py_max a b) = true /\ PrimFloat.leb b (py_max a b) = true.
Proof.
  intros Ha Hb. unfold py_max. destruct (PrimFloat.ltb a b) eqn:Hlt.
  - split; [done|]. split; [by apply ltb_leb|by apply leb_refl].
  - split; [done|]. split; [by apply leb_refl|by apply not_ltb_leb].
Qed.

Lemma SFleb_nan_r (a : spec_float) : SFleb a S754_nan = false.
Proof. by destruct a. Qed.

(** X18: [isBetween] is true exactly when the number lies between the
    two others in one order or the other, whichever is given first; a NaN
    among the three makes it false. *)
Theorem isBetween_either_order (number a b : float) :
  isBetween number a b
  = (PrimFloat.leb a number && PrimFloat.leb number b)
    || (PrimFloat.leb b number && PrimFloat.leb number a).
Proof.
  unfold isBetween.
  destruct (PrimFloat.ltb b a) eqn:Hlt; rewrite ltb_spec in Hlt; rewrite !leb_spec.
  all: set (x := Prim2SF number) in *; set (p := Prim2SF a) in *; set (q := Prim2SF b) in *.
  - apply SFltb_not_leb in Hlt.
    destruct (SFleb p x) eqn:H1, (SFleb x q) eqn:H2; cbn [andb orb]; try done.
    by rewrite (SFleb_trans _ _ _ H1 H2) in Hlt.
  - destruct (SFleb q x) eqn:H1, (SFleb x p) eqn:H2; cbn [andb orb];
      rewrite ?orb_false_r; try done.
    destruct (SFleb_total _ _ Hlt) as [Hpq|[Hp|Hq]].
    + by rewrite (SFleb_trans _ _ _ Hpq H1), (SFleb_trans _ _ _ H2 Hpq).
    + by rewrite Hp, SFleb_nan_r in H2.
    + by rewrite Hq in H1.
Qed.

(** ** Bounds of a frame *)

Lemma bounds_fold_encloses `{Geopandas} (l : list geometry) (acc : bounds) :
  no_nan_bounds acc ->
  (forall g, g ∈ l -> no_nan_bounds (geom_bounds g)) ->
  no_nan_bounds (fold_left bounds_step l acc)
  /\ encloses (fold_left bounds_step l acc) acc
  /\ (forall g, g ∈ l -> encloses (fold_left bounds_step l acc) (geom_bounds g)).
Proof.
  revert acc. induction l as [|g l IH]; intros acc Hacc Hl.
  - cbn. split; [done|]. split; [|by intros ? ?%elem_of_nil].
    destruct acc as [[[a b] c] d]. destruct Hacc as (?&?&?&?).
    cbn. by rewrite !leb_refl.
  - cbn [fold_left].
    assert (Hg : no_nan_bounds (geom_bounds g)) by (apply Hl, elem_of_cons; by left).
    assert (Hstep : no_nan_bounds (bounds_step acc g)
                    /\ encloses (bounds_step acc g) acc
                    /\ encloses (bounds_step acc g) (geom_bounds g)).
    { unfold bounds_step. destruct acc as [[[a b] c] d].
      destruct (geom_bounds g) as [[[a' b'] c'] d'].
      destruct Hacc as (?&?&?&?), Hg as (?&?&?&?). cbn.
      destruct (py_min_spec a a') as (?&?&?); [done..|].
      destruct (py_min_spec b b') as (?&?&?); [done..|].
      destruct (py_max_spec c c') as (?&?&?); [done..|].
      destruct (py_max_spec d d') as (?&?&?); [done..|]. done. }
    destruct Hstep as (Hn & Hacc' & Hg').
    destruct (IH (bounds_step acc g) Hn) as (IH1 & IH2 & IH3).
    { intros g' Hin. apply Hl, elem_of_cons. by right. }
    assert (Htrans : forall x y z, encloses x y -> encloses y z -> encloses x z).
    { intros [[[x0 x1] x2] x3] [[[y0 y1] y2] y3] [[[z0 z1] z2] z3] (?&?&?&?) (?&?&?&?). cbn.
      eauto 10 using leb_trans. }
    split; [done|]. split; [by eapply Htrans|].
    intros g' [->|Hin]%elem_of_cons; [by eapply Htrans|by apply IH3].
Qed.

(** X19: when no geometry of the frame has a NaN among its bounds, the
    rectangle [getVectorBounds] returns holds the bounds of every
    geometry of the frame. *)
Theorem getVectorBounds_encloses `{Geopandas} (grid_gdf : GeoDataFrame) :
  (forall g, g ∈ gdf_geometry grid_gdf -> no_nan_bounds (geom_bounds g)) ->
  forall g, g ∈ gdf_geometry grid_gdf ->
    encloses (getVectorBounds grid_gdf) (geom_bounds g).
Proof.
  intros Hl g Hg.
  apply (bounds_fold_encloses (gdf_geometry grid_gdf)
           (py_inf, py_inf, PrimFloat.opp py_inf, PrimFloat.opp py_inf)); [|done..].
  by cbn.
Qed.

Lemma getVectorBounds_encloses_witness :
  encloses (getVectorBounds (H := ex_geopandas) ex_cells)
    (geom_bounds (Geopandas := ex_geopandas) (Box 1 0 2 1)%float).
Proof.
  apply (@getVectorBounds_encloses ex_geopandas ex_cells).
  - intros g [->|[->|Hg%elem_of_nil]%elem_of_cons]%elem_of_cons; [| |done].
    all: vm_compute; done.
  - apply elem_of_cons. right. apply elem_of_cons. by left.
Defined.

(** ** Grid construction: shapes and coordinate systems *)




(** X21: a boundary file that names no coordinate system cannot be
    gridded, with [useDegree] or without: [createGrid] raises a
    [ValueError] from [to_crs] and writes neither grid file. *)
Theorem createGrid_needs_crs `{Geopandas} `{Numpy} (shapefile_path : string)
    (resolution : float) (useDegree : bool) (w : World) (gdf : GeoDataFrame) :
  gpd_read_file w shapefile_path = Some gdf ->
  gdf_crs gdf = None ->
  (exists msg, (createGrid shapefile_path resolution useDegree w).1 = Raise (ValueError msg))
  /\ fs (createGrid shapefile_path resolution useDegree w).2 = fs w
  /\ calls (createGrid shapefile_path resolution useDegree w).2 = calls w.
Proof.
  intros Hread Hcrs. unfold createGrid, to_crs, print, stdout_write. munfold.
  rewrite Hread. cbn. rewrite Hcrs.
  destruct useDegree; cbn; [by eauto|].
  destruct (gdf_total_bounds gdf) as [[[minx miny] maxx] maxy].
  destruct (gdf_total_bounds _) as [[[minx' miny'] maxx'] maxy'].
  destruct (fold_left _ _ _) as [[[minx'' miny''] maxx''] maxy''].
  cbn. rewrite Hcrs. by eauto.
Qed.


Lemma createGrid_needs_crs_witness :
  gdf_crs (mkGdf None [Shape "boundary"] None) = None
  /\ (exists msg,
        (createGrid (H := ex_geopandas_naive) (H0 := ex_numpy) "boundary.shp" 1%float false
           ex_world).1 = Raise (ValueError msg))
  /\ fs (createGrid (H := ex_geopandas_naive) (H0 := ex_numpy) "boundary.shp" 1%float false
           ex_world).2 = fs ex_world
  /\ calls (createGrid (H := ex_geopandas_naive) (H0 := ex_numpy) "boundary.shp" 1%float
              false ex_world).2 = calls ex_world.
Proof.
  split; [reflexivity|].
  apply (@createGrid_needs_crs ex_geopandas_naive ex_numpy "boundary.shp" 1%float false
           ex_world (mkGdf None [Shape "boundary"] None)); reflexivity.
Defined.
